(** * Dr. HealBot (src/app.py): language detection, prompt composition,
      conversation assembly, speech bridges and the chat-history store.

    Python values are embedded shallowly:
    - a [str] is the list of its Unicode code points ([pystr]);
    - JSON-shaped data ([Dict[str, Any]]) is the inductive [value], with
      dictionaries as association lists in insertion order;
    - code that may raise returns a [result];
    - the file system is a finite map from paths to file contents.
    External collaborators (langdetect, the model oracle, ffmpeg, Vosk,
    edge-tts, the json module, the clock) are variables of the section. *)

From Stdlib Require Import ZArith String Ascii List Bool Lia DecimalString.
From Stdlib Require Import PrimFloat.
From stdpp Require Import base option list gmap.

Set Warnings "-register-all".
Local Open Scope Z_scope.

(** ** Python strings *)

Definition pystr : Type := list Z.

Definition byte_of (a : ascii) : Z := Z.of_N (N_of_ascii a).

Fixpoint bytes_of_string (s : string) : list Z :=
  match s with
  | EmptyString => []
  | String a r => byte_of a :: bytes_of_string r
  end.

Definition cont (b : Z) : Z := Z.land b 0x3F.

(** UTF-8 decoding of the bytes of a source literal into code points. *)
Fixpoint utf8_decode (bs : list Z) : pystr :=
  match bs with
  | [] => []
  | b0 :: r0 =>
    if b0 <? 0x80 then b0 :: utf8_decode r0
    else match r0 with
    | [] => []
    | b1 :: r1 =>
      if b0 <? 0xE0 then
        Z.lor (Z.shiftl (Z.land b0 0x1F) 6) (cont b1) :: utf8_decode r1
      else match r1 with
      | [] => []
      | b2 :: r2 =>
        if b0 <? 0xF0 then
          Z.lor (Z.shiftl (Z.land b0 0x0F) 12)
                (Z.lor (Z.shiftl (cont b1) 6) (cont b2)) :: utf8_decode r2
        else match r2 with
        | [] => []
        | b3 :: r3 =>
          Z.lor (Z.shiftl (Z.land b0 0x07) 18)
                (Z.lor (Z.shiftl (cont b1) 12)
                       (Z.lor (Z.shiftl (cont b2) 6) (cont b3)))
            :: utf8_decode r3
        end
      end
    end
  end.

(** [py "..."] is the Python string written with that literal. *)
Definition py (s : string) : pystr := utf8_decode (bytes_of_string s).

Definition in_range (lo hi c : Z) : bool := (lo <=? c) && (c <=? hi).

(** [str.isspace] of one character, as used by [str.strip()]. *)
Definition py_isspace (c : Z) : bool :=
  in_range 0x09 0x0D c || in_range 0x1C 0x20 c || (c =? 0x85) || (c =? 0xA0)
  || (c =? 0x1680) || in_range 0x2000 0x200A c || (c =? 0x2028)
  || (c =? 0x2029) || (c =? 0x202F) || (c =? 0x205F) || (c =? 0x3000).

Fixpoint lstrip (s : pystr) : pystr :=
  match s with
  | [] => []
  | c :: r => if py_isspace c then lstrip r else s
  end.

Definition rstrip (s : pystr) : pystr := rev (lstrip (rev s)).

Definition strip (s : pystr) : pystr := rstrip (lstrip s).

(** [re.search(cls, text)] for a one-character class. *)
Definition re_search (cls : Z -> bool) (text : pystr) : bool := existsb cls text.

(** ** Exceptions *)

Inductive exn : Type :=
| TimeoutExpired
| TypeError
| AttributeError
| KeyError
| Exception (msg : pystr).

Inductive result (A : Type) : Type :=
| Ok (a : A)
| Raise (e : exn).
Arguments Ok {A} a.
Arguments Raise {A} e.

Definition bind {A B} (m : result A) (k : A -> result B) : result B :=
  match m with
  | Ok a => k a
  | Raise e => Raise e
  end.

Notation "x <- m ;; k" := (bind m (fun x => k))
  (at level 100, m at next level, right associativity).

(** ** JSON-shaped Python values *)

Inductive value : Type :=
| VNone
| VBool (b : bool)
| VInt (n : Z)
| VFloat (x : float)
| VStr (s : pystr)
| VList (l : list value)
| VDict (d : list (pystr * value)).

Definition dict : Type := list (pystr * value).

(** Truth value of an object under [if x:]. *)
Definition truthy (v : value) : bool :=
  match v with
  | VNone => false
  | VBool b => b
  | VInt n => negb (n =? 0)
  | VFloat x => negb (PrimFloat.eqb x 0%float)
  | VStr s => match s with [] => false | _ => true end
  | VList l => match l with [] => false | _ => true end
  | VDict d => match d with [] => false | _ => true end
  end.

Definition str_truthy (s : pystr) : bool := truthy (VStr s).

Fixpoint dict_lookup (d : dict) (k : pystr) : option value :=
  match d with
  | [] => None
  | (k', v) :: r => if decide (k' = k) then Some v else dict_lookup r k
  end.

(** [d.get(k, default)] and [d.get(k)]. *)
Definition dict_get_default (d : dict) (k : pystr) (default : value) : value :=
  match dict_lookup d k with Some v => v | None => default end.

Definition dict_get (d : dict) (k : pystr) : value := dict_get_default d k VNone.

(** [d[k]]. *)
Definition dict_subscript (d : dict) (k : pystr) : result value :=
  match dict_lookup d k with Some v => Ok v | None => Raise KeyError end.

(** [x.get(k, default)] on an arbitrary object: only dictionaries have it. *)
Definition py_get_default (x : value) (k : pystr) (default : value) : result value :=
  match x with
  | VDict d => Ok (dict_get_default d k default)
  | _ => Raise AttributeError
  end.

Definition py_get (x : value) (k : pystr) : result value := py_get_default x k VNone.

(** [x[k]] with a string key. *)
Definition py_subscript (x : value) (k : pystr) : result value :=
  match x with
  | VDict d => dict_subscript d k
  | _ => Raise TypeError
  end.

(** [x.items()]. *)
Definition py_items (x : value) : result (list (pystr * value)) :=
  match x with
  | VDict d => Ok d
  | _ => Raise AttributeError
  end.

(** The elements visited by [for e in x]. *)
Definition py_iter (x : value) : result (list value) :=
  match x with
  | VList l => Ok l
  | VStr s => Ok (map (fun c => VStr [c]) s)
  | VDict d => Ok (map (fun kv => VStr (fst kv)) d)
  | _ => Raise TypeError
  end.

Definition last_n {A} (n : nat) (l : list A) : list A :=
  skipn (length l - n)%nat l.

(** [x[-n:]]: sequences are sliced; a dictionary or a number raises (a
    dictionary raises KeyError instead from Python 3.12 on). *)
Definition py_slice_last (n : nat) (x : value) : result value :=
  match x with
  | VList l => Ok (VList (last_n n l))
  | VStr s => Ok (VStr (last_n n s))
  | _ => Raise TypeError
  end.

Definition NL : pystr := [10].

(** ["=" * 50]. *)
Definition rule50 : pystr := repeat 61 50.

Definition str_of_Z (n : Z) : pystr :=
  bytes_of_string (DecimalString.NilZero.string_of_int (Z.to_int n)).

(** Does [needle] occur in [s] as a contiguous substring? *)
Fixpoint is_prefix (p s : pystr) : bool :=
  match p, s with
  | [], _ => true
  | _ :: _, [] => false
  | a :: p', b :: s' => (a =? b) && is_prefix p' s'
  end.

Fixpoint contains (needle s : pystr) : bool :=
  is_prefix needle s || match s with [] => false | _ :: r => contains needle r end.

(** ** Request and response models (app.py 59-74, 486-488) *)

Module ChatMessage.
Record t : Type := { role : pystr; text : pystr }.
End ChatMessage.

Module ChatRequest.
Record t : Type := {
  message : pystr;
  language : option pystr;
  chat_history : option (list ChatMessage.t);
  patient_data : option dict;
  biomarker_data : option dict;
  biomarker_analysis : option dict
}.
End ChatRequest.

Module TTSRequest.
Record t : Type := {
  text : pystr;
  language_code : option pystr;
  voice : option pystr
}.
End TTSRequest.

Module SaveChatRequest.
Record t : Type := {
  patient_name : pystr;
  chat_history : list ChatMessage.t
}.
End SaveChatRequest.

Inductive response : Type :=
| JSONResponse (content : value) (status_code : Z)
| StreamingResponse (body : list Z) (media_type : pystr) (headers : list (pystr * pystr)).

(** The same request sent without a biomarker report or raw biomarker data. *)
Definition without_biomarker (request : ChatRequest.t) : ChatRequest.t :=
  {| ChatRequest.message := ChatRequest.message request;
     ChatRequest.language := ChatRequest.language request;
     ChatRequest.chat_history := ChatRequest.chat_history request;
     ChatRequest.patient_data := ChatRequest.patient_data request;
     ChatRequest.biomarker_data := None;
     ChatRequest.biomarker_analysis := None |}.

(** The same request sent without a patient record. *)
Definition without_patient (request : ChatRequest.t) : ChatRequest.t :=
  {| ChatRequest.message := ChatRequest.message request;
     ChatRequest.language := ChatRequest.language request;
     ChatRequest.chat_history := ChatRequest.chat_history request;
     ChatRequest.patient_data := None;
     ChatRequest.biomarker_data := ChatRequest.biomarker_data request;
     ChatRequest.biomarker_analysis := ChatRequest.biomarker_analysis request |}.

(** An [Optional[Dict]] field as an object: [None] or the dictionary. *)
Definition of_optional (d : option dict) : value :=
  match d with
  | None => VNone
  | Some d => VDict d
  end.

(** [x in xs] for an optional string [x]. *)
Definition py_in (x : option pystr) (xs : list pystr) : bool :=
  existsb (fun y => bool_decide (x = Some y)) xs.

(** ** Speech collaborators *)

(** One item of [communicate.stream()]. *)
Module Chunk.
Record t : Type := { type : pystr; data : list Z }.
End Chunk.

Inductive vosk_model : Type := vosk_model_en | vosk_model_ar.

(** What [wave.open] finds in the transcoded file; one entry of [frames]
    per audio frame. *)
Record wav_file : Type := {
  getnchannels : Z;
  getsampwidth : Z;
  getframerate : Z;
  frames : list Z
}.

(** How the [ffmpeg] subprocess ended, and whether it left an output file. *)
Inductive ffmpeg_outcome : Type :=
| FfmpegExit (returncode : Z) (wrote_output : bool)
| FfmpegTimeout (wrote_output : bool)
| FfmpegNotRun (e : exn).

(** What the outside world does during one [/stt] request. *)
Record stt_env : Type := {
  upload_read : result (list Z);
  tmp_input_name : pystr;
  tmp_input_write : result unit;
  tmp_wav_name : pystr;
  ffmpeg : ffmpeg_outcome;
  wave_open : result wav_file;
  remove_ok : pystr -> bool
}.

(** Local variables of the handler that its [finally] block reads, and the
    set of files that exist. *)
Record stt_state : Type := {
  files : gset pystr;
  tmp_input_path : option pystr;
  tmp_wav_path : option pystr
}.

(** State and exceptions: the state survives a raise. *)
Definition M (A : Type) : Type := stt_state -> stt_state * result A.

Definition ret {A} (a : A) : M A := fun st => (st, Ok a).

Definition lift {A} (r : result A) : M A := fun st => (st, r).

Definition bindM {A B} (m : M A) (k : A -> M B) : M B :=
  fun st =>
    match m st with
    | (st', Ok a) => k a st'
    | (st', Raise e) => (st', Raise e)
    end.

Notation "x <~ m ;; k" := (bindM m (fun x => k))
  (at level 100, m at next level, right associativity).

Definition create_file (path : pystr) : M unit :=
  fun st => ({| files := {[path]} ∪ files st;
                tmp_input_path := tmp_input_path st;
                tmp_wav_path := tmp_wav_path st |}, Ok tt).

Definition set_tmp_input_path (path : pystr) : M unit :=
  fun st => ({| files := files st;
                tmp_input_path := Some path;
                tmp_wav_path := tmp_wav_path st |}, Ok tt).

Definition set_tmp_wav_path (path : pystr) : M unit :=
  fun st => ({| files := files st;
                tmp_input_path := tmp_input_path st;
                tmp_wav_path := Some path |}, Ok tt).

(** [len(x)]. *)
Definition py_len (x : value) : result Z :=
  match x with
  | VStr s => Ok (Z.of_nat (length s))
  | VList l => Ok (Z.of_nat (length l))
  | VDict d => Ok (Z.of_nat (length d))
  | _ => Raise TypeError
  end.

(** [x.strip()]: only strings have it. *)
Definition py_strip (x : value) : result pystr :=
  match x with
  | VStr s => Ok (strip s)
  | _ => Raise AttributeError
  end.

(** [d[k] = v]: an existing key keeps its position. *)
Fixpoint dict_set (d : dict) (k : pystr) (v : value) : dict :=
  match d with
  | [] => [(k, v)]
  | (k', v') :: r => if decide (k' = k) then (k, v) :: r else (k', v') :: dict_set r k v
  end.

(** The saved turns read back from a loaded document. *)
Definition turn_of_value (x : value) : option ChatMessage.t :=
  match x with
  | VDict d =>
    match dict_lookup d (py "role"), dict_lookup d (py "text") with
    | Some (VStr r), Some (VStr t) => Some {| ChatMessage.role := r; ChatMessage.text := t |}
    | _, _ => None
    end
  | _ => None
  end.

Definition turns_of_document (doc : value) : option (list ChatMessage.t) :=
  match doc with
  | VDict d =>
    match dict_lookup d (py "chat_history") with
    | Some (VList l) => mapM turn_of_value l
    | _ => None
    end
  | _ => None
  end.

(** The Arabic script blocks named by the language detector's contract. *)
Definition ArabicScript (c : Z) : Prop :=
  0x0600 <= c <= 0x06FF \/ 0x0750 <= c <= 0x077F \/ 0x08A0 <= c <= 0x08FF.

(** A statistical detector that always fails (text too short). *)
Definition detect_fails (_ : pystr) : result pystr := Raise (Exception (py "No features in text.")).

(** A statistical detector that answers French for everything. *)
Definition detect_fr (_ : pystr) : result pystr := Ok (py "fr").

(** ** Sample inputs *)

(** A request for English speech whose text is the single letter U+0750
    (Arabic Supplement block). *)
Definition tts_supplement_request : TTSRequest.t :=
  {| TTSRequest.text := [0x0750];
     TTSRequest.language_code := Some (py "en");
     TTSRequest.voice := None |}.

(** A patient record with personal info and one recorded vital sign. *)
Definition patient_with_vitals : dict :=
  [(py "personal_info",
    VDict [(py "name", VStr (py "Sara")); (py "age", VInt 41);
           (py "gender", VStr (py "female"))]);
   (py "vital_signs", VDict [(py "bp", VStr (py "120/80"))])].

(** A record with six past visits and nothing else. *)
Definition patient_with_visits : dict :=
  [(py "previous_visits",
    VList [VStr (py "v1"); VStr (py "v2"); VStr (py "v3");
           VStr (py "v4"); VStr (py "v5"); VStr (py "v6")])].

(** A silent clip: a valid mono 16-bit 16 kHz file with no frames. *)
Definition silent_wav : wav_file :=
  {| getnchannels := 1; getsampwidth := 2; getframerate := 16000; frames := [] |}.

(** A clip with three frames. *)
Definition spoken_wav : wav_file :=
  {| getnchannels := 1; getsampwidth := 2; getframerate := 16000; frames := [12; -7; 3] |}.

(** A request in which every external step succeeds. *)
Definition env_ok (wf : wav_file) : stt_env :=
  {| upload_read := Ok [26; 69; 223; 163];
     tmp_input_name := py "/tmp/tmpk3x9.webm";
     tmp_input_write := Ok tt;
     tmp_wav_name := py "/tmp/tmpq7c2.wav";
     ffmpeg := FfmpegExit 0 true;
     wave_open := Ok wf;
     remove_ok := fun _ => true |}.

(** A request whose upload cannot be read; every removal would succeed. *)
Definition env_read_fails : stt_env :=
  {| upload_read := Raise (Exception (py "read failed"));
     tmp_input_name := py "/tmp/tmpk3x9.webm";
     tmp_input_write := Ok tt;
     tmp_wav_name := py "/tmp/tmpq7c2.wav";
     ffmpeg := FfmpegExit 0 true;
     wave_open := Ok silent_wav;
     remove_ok := fun _ => true |}.

(** A recognizer that remembers its model and the chunks it was fed, and
    hears a greeting in any non-empty audio. *)
Definition toy_recognizer : Type := vosk_model * list (list Z).

Definition toy_Kaldi (model : vosk_model) (rate : Z) : result toy_recognizer :=
  Ok (model, []).

Definition toy_Accept (rec : toy_recognizer) (data : list Z) : toy_recognizer :=
  (fst rec, snd rec ++ [data]).

Definition toy_Final (rec : toy_recognizer) : pystr :=
  match snd rec with
  | [] => []
  | _ :: _ =>
    match fst rec with
    | vosk_model_en => py " hello "
    | vosk_model_ar => py "مرحبا"
    end
  end.

Definition toy_loads (s : pystr) : result value := Ok (VDict [(py "text", VStr s)]).

Definition toy_exn_str (e : exn) : pystr :=
  match e with
  | Exception msg => msg
  | _ => []
  end.

(** A store whose files hold the documents themselves. *)
Definition doc_dumps (v : value) : result value := Ok v.
Definition doc_loads (f : value) : result value := Ok f.

Definition toy_path_join (folder name : pystr) : pystr := folder ++ py "/" ++ name.

Definition two_turns : list ChatMessage.t :=
  [ {| ChatMessage.role := py "user"; ChatMessage.text := py "I have a fever" |};
    {| ChatMessage.role := py "model"; ChatMessage.text := py "Since when?" |} ].

Definition save_request : SaveChatRequest.t :=
  {| SaveChatRequest.patient_name := py "sara";
     SaveChatRequest.chat_history := two_turns |}.



(** A lab report with two priorities. *)
Definition lab_report : dict :=
  [(py "executive_summary",
    VDict [(py "top_priorities",
            VList [VStr (py "Lower LDL"); VStr (py "Vitamin D")])])].

(** The same message with a patient record and a precomputed report. *)
Definition chat_request_with_context : ChatRequest.t :=
  {| ChatRequest.message := py "  since yesterday ";
     ChatRequest.language := Some (py "en");
     ChatRequest.chat_history := Some two_turns;
     ChatRequest.patient_data := Some patient_with_vitals;
     ChatRequest.biomarker_data := None;
     ChatRequest.biomarker_analysis := Some lab_report |}.

Definition toy_repr (x : value) : pystr := py "?".

Definition toy_predict (biomarker_data : dict) : result value := Raise KeyError.

Definition toy_generate (contents : list value) : result pystr :=
  Ok (py "Please rest and drink water. ").

Definition toy_prompt_en : pystr := py "Be kind.".
Definition toy_prompt_ar : pystr := py "كن لطيفا.".

(** Requests and collaborators for the further properties. *)
Definition chat_request_raw_biomarker : ChatRequest.t :=
  {| ChatRequest.message := py "What do my results mean?";
     ChatRequest.language := Some (py "en");
     ChatRequest.chat_history := None;
     ChatRequest.patient_data := None;
     ChatRequest.biomarker_data := Some [(py "glucose", VInt 180)];
     ChatRequest.biomarker_analysis := None |}.


Definition chat_request_bad_record : ChatRequest.t :=
  {| ChatRequest.message := py "I have a fever";
     ChatRequest.language := Some (py "ar");
     ChatRequest.chat_history := None;
     ChatRequest.patient_data := Some [(py "personal_info", VStr (py "Sara"))];
     ChatRequest.biomarker_data := None;
     ChatRequest.biomarker_analysis := None |}.

Definition tts_hello_request : TTSRequest.t :=
  {| TTSRequest.text := py "Hello";
     TTSRequest.language_code := Some (py "en");
     TTSRequest.voice := None |}.

Definition tts_custom_voice_request : TTSRequest.t :=
  {| TTSRequest.text := py "Hello";
     TTSRequest.language_code := Some (py "auto");
     TTSRequest.voice := Some (py "custom-voice-id") |}.

(** A request naming a voice with a character outside Latin-1. *)
Definition tts_euro_voice_request : TTSRequest.t :=
  {| TTSRequest.text := py "Hello";
     TTSRequest.language_code := Some (py "en");
     TTSRequest.voice := Some (py "en-US-€Neural") |}.

Definition tts_arabic_request : TTSRequest.t :=
  {| TTSRequest.text := py "مرحبا";
     TTSRequest.language_code := Some (py "en");
     TTSRequest.voice := None |}.

(** A stream with two audio chunks around a word-boundary event. *)
Definition toy_stream (text voice : pystr) : result (list Chunk.t) :=
  Ok [ {| Chunk.type := py "audio"; Chunk.data := [73; 68] |};
       {| Chunk.type := py "WordBoundary"; Chunk.data := [9] |};
       {| Chunk.type := py "audio"; Chunk.data := [51] |} ].

(** A stream that ends without audio. *)
Definition toy_stream_silent (text voice : pystr) : result (list Chunk.t) :=
  Ok [ {| Chunk.type := py "WordBoundary"; Chunk.data := [] |} ].

Definition stereo_wav : wav_file :=
  {| getnchannels := 2; getsampwidth := 2; getframerate := 44100; frames := [5; 6] |}.

(** A request whose upload is stored and whose ffmpeg run ends as given. *)
Definition env_ffmpeg (outcome : ffmpeg_outcome) (wf : wav_file) : stt_env :=
  {| upload_read := Ok [26; 69; 223; 163];
     tmp_input_name := py "/tmp/tmpk3x9.webm";
     tmp_input_write := Ok tt;
     tmp_wav_name := py "/tmp/tmpq7c2.wav";
     ffmpeg := outcome;
     wave_open := Ok wf;
     remove_ok := fun _ => true |}.

(** A parser that rejects the null document. *)
Definition strict_loads (f : value) : result value :=
  match f with
  | VNone => Raise (Exception (py "Expecting value"))
  | _ => Ok f
  end.

Definition voice_catalogue : list value :=
  [ VDict [(py "ShortName", VStr (py "en-US-AriaNeural"));
           (py "Locale", VStr (py "en-US"));
           (py "Gender", VStr (py "Female"));
           (py "LocalName", VStr (py "Aria"))];
    VDict [(py "ShortName", VStr (py "fr-FR-DeniseNeural"));
           (py "Locale", VStr (py "fr-FR"));
           (py "Gender", VStr (py "Female"))];
    VDict [(py "ShortName", VStr (py "ar-SA-HamedNeural"));
           (py "Locale", VStr (py "ar-SA"));
           (py "Gender", VStr (py "Male"))] ].

(** A file system that refuses to examine any path longer than 255
    characters, and one that examines every path. *)
Definition stat_name_too_long (path : pystr) : option exn :=
  if 255 <? Z.of_nat (length path)
  then Some (Exception (py "[Errno 36] File name too long"))
  else None.

Definition stat_ok (path : pystr) : option exn := None.

(** A patient name of 300 letters. *)
Definition long_name : pystr := repeat 97 300.

Section Service.

Set Default Proof Using "Type".

(** [langdetect.detect]: a language code, or an exception. *)
Variable detect : pystr -> result pystr.

(** ** Language detector (app.py 348-357) *)

(** The character class of [arabic_pattern]: U+0600-U+06FF, U+0750-U+077F,
    U+08A0-U+08FF. *)
Definition arabic_pattern (c : Z) : bool :=
  in_range 0x0600 0x06FF c || in_range 0x0750 0x077F c || in_range 0x08A0 0x08FF c.

Definition detect_language_body (text : pystr) : result pystr :=
  if re_search arabic_pattern text then Ok (py "ar")
  else
    lang <- detect text ;;
    Ok (if decide (lang = py "ar") then py "ar" else py "en").

Definition detect_language (text : pystr) : pystr :=
  match detect_language_body text with
  | Ok tag => tag
  | Raise _ => py "en"
  end.

(** ** Patient and biomarker context (app.py 96-175, 359-390) *)

(** [str()] of a float, a list or a dictionary. *)
Variable repr_compound : value -> pystr.

(** What an f-string field [{x}] renders. *)
Definition py_str (x : value) : pystr :=
  match x with
  | VStr s => s
  | VNone => py "None"
  | VBool true => py "True"
  | VBool false => py "False"
  | VInt n => str_of_Z n
  | _ => repr_compound x
  end.

(** [if patient_data.get("personal_info"):] and its three lines. *)
Definition add_personal_info (l_name l_age l_gender : pystr)
    (patient_data : dict) (context : pystr) : result pystr :=
  if truthy (dict_get patient_data (py "personal_info")) then
    info <- dict_subscript patient_data (py "personal_info") ;;
    name <- py_get_default info (py "name") (VStr (py "N/A")) ;;
    let context := context ++ l_name ++ py_str name ++ NL in
    age <- py_get_default info (py "age") (VStr (py "N/A")) ;;
    let context := context ++ l_age ++ py_str age ++ NL in
    gender <- py_get_default info (py "gender") (VStr (py "N/A")) ;;
    Ok (context ++ l_gender ++ py_str gender ++ NL)
  else Ok context.

(** [for x in xs: context += f"<bullet>{x}\n"]. *)
Definition add_bullets (bullet : pystr) (xs : list value) (context : pystr) : pystr :=
  fold_left (fun context x => context ++ bullet ++ py_str x ++ NL) xs context.

(** [if patient_data.get(field):] heading, then one bullet per element. *)
Definition add_list (field heading bullet : pystr)
    (patient_data : dict) (context : pystr) : result pystr :=
  if truthy (dict_get patient_data field) then
    let context := context ++ heading in
    xs <- dict_subscript patient_data field ;;
    items <- py_iter xs ;;
    Ok (add_bullets bullet items context)
  else Ok context.

(** [if patient_data.get("previous_visits"):] heading, then one bullet per
    element of [patient_data["previous_visits"][-n:]]. *)
Definition add_visits (n : nat) (heading bullet : pystr)
    (patient_data : dict) (context : pystr) : result pystr :=
  if truthy (dict_get patient_data (py "previous_visits")) then
    let context := context ++ heading in
    xs <- dict_subscript patient_data (py "previous_visits") ;;
    recent <- py_slice_last n xs ;;
    items <- py_iter recent ;;
    Ok (add_bullets bullet items context)
  else Ok context.

(** [if patient_data.get("vital_signs"):] heading, then [key: value] lines. *)
Definition add_vitals (heading : pystr)
    (patient_data : dict) (context : pystr) : result pystr :=
  if truthy (dict_get patient_data (py "vital_signs")) then
    let context := context ++ heading in
    vitals <- dict_subscript patient_data (py "vital_signs") ;;
    kvs <- py_items vitals ;;
    Ok (fold_left
          (fun context kv =>
             context ++ py "   • " ++ fst kv ++ py ": " ++ py_str (snd kv) ++ NL)
          kvs context)
  else Ok context.

Definition patient_block_ar (patient_data : dict) : result pystr :=
  let context := NL ++ NL ++ rule50 ++ NL in
  let context := context ++ py "⚠️ معلومات المريض المهمة - يجب مراعاتها في كل رد:" ++ NL in
  let context := context ++ rule50 ++ NL in
  context <- add_personal_info (py "👤 الاسم: ") (py "📅 العمر: ") (py "⚧ الجنس: ")
               patient_data context ;;
  context <- add_list (py "medical_history")
               (NL ++ py "📋 التاريخ الطبي:" ++ NL) (py "• ") patient_data context ;;
  context <- add_list (py "medications")
               (NL ++ py "💊 الأدوية الحالية:" ++ NL) (py "• ") patient_data context ;;
  context <- add_list (py "allergies")
               (NL ++ py "⚠️ الحساسيات:" ++ NL) (py "• ") patient_data context ;;
  add_visits 3 (NL ++ py "📅 الزيارات السابقة:" ++ NL) (py "• ") patient_data context.

Definition patient_block_en (patient_data : dict) : result pystr :=
  let context := NL ++ NL ++ rule50 ++ NL in
  let context :=
    context ++ py "⚠️ IMPORTANT PATIENT INFORMATION - Consider in EVERY response:" ++ NL in
  let context := context ++ rule50 ++ NL in
  context <- add_personal_info (py "👤 Name: ") (py "📅 Age: ") (py "⚧ Gender: ")
               patient_data context ;;
  context <- add_list (py "medical_history")
               (NL ++ py "🏥 KNOWN MEDICAL CONDITIONS (CRITICAL):" ++ NL) (py "   • ")
               patient_data context ;;
  context <- add_list (py "medications")
               (NL ++ py "💊 CURRENT MEDICATIONS (Check for interactions):" ++ NL)
               (py "   • ") patient_data context ;;
  context <- add_list (py "allergies")
               (NL ++ py "🚨 ALLERGIES (NEVER recommend these):" ++ NL) (py "   • ")
               patient_data context ;;
  context <- add_visits 5 (NL ++ py "📋 RECENT VISIT HISTORY:" ++ NL) (py "   • ")
               patient_data context ;;
  add_vitals (NL ++ py "📊 LAST RECORDED VITALS:" ++ NL) patient_data context.

(** The closing reminder, the same text in both languages. *)
Definition patient_footer : pystr :=
  NL ++ rule50 ++ NL
  ++ py "⚠️ INSTRUCTIONS: Always consider this patient's history when giving advice." ++ NL
  ++ py "   - Check allergies before recommending any medication" ++ NL
  ++ py "   - Consider existing conditions and current medications" ++ NL
  ++ py "   - Reference their history when relevant to build trust" ++ NL
  ++ rule50 ++ NL.

Definition format_patient_history (patient_data : dict) (language : pystr) : result pystr :=
  if negb (truthy (VDict patient_data)) then Ok []
  else
    context <- (if decide (language = py "ar") then patient_block_ar patient_data
                else patient_block_en patient_data) ;;
    Ok (context ++ patient_footer).

(** [biomarker.predict] applied to the [BiomarkerRequest] built from
    [biomarker_data]; the module is not part of this file. *)
Variable biomarker_predict : dict -> result value.

Definition call_biomarker_api (biomarker_data : dict) : value :=
  match biomarker_predict biomarker_data with
  | Ok report => report
  | Raise _ => VNone
  end.

(** [for i, priority in enumerate(xs, i0): context += f"{i}. {priority}\n"]. *)
Fixpoint add_numbered (i : Z) (xs : list value) (context : pystr) : pystr :=
  match xs with
  | [] => context
  | priority :: r =>
    add_numbered (i + 1) r (context ++ str_of_Z i ++ py ". " ++ py_str priority ++ NL)
  end.

Definition biomarker_block (title heading : pystr) (report : value) : result pystr :=
  let context := NL ++ NL ++ title ++ NL in
  executive_summary <- py_get report (py "executive_summary") ;;
  if truthy executive_summary then
    summary <- py_subscript report (py "executive_summary") ;;
    top_priorities <- py_get summary (py "top_priorities") ;;
    if truthy top_priorities then
      let context := context ++ heading ++ NL in
      xs <- py_subscript summary (py "top_priorities") ;;
      items <- py_iter xs ;;
      Ok (add_numbered 1 items context)
    else Ok context
  else Ok context.

Definition format_biomarker_context (report : value) (language : pystr) : result pystr :=
  if negb (truthy report) then Ok []
  else if decide (language = py "ar") then
    biomarker_block (py "📊 معلومات تقرير المختبر:") (py "🎯 الأولويات الصحية الرئيسية:") report
  else
    biomarker_block (py "📊 LAB REPORT INFORMATION:") (py "🎯 Top Health Priorities:") report.

(** ** Chat endpoint (app.py 395-453) *)

(** The two hand-written instruction templates (app.py 178-346). *)
Variable DOCTOR_SYSTEM_PROMPT_EN : pystr.
Variable DOCTOR_SYSTEM_PROMPT_AR : pystr.

(** [model.generate_content(contents).text]. *)
Variable generate_content : list value -> result pystr.

(** [str(e)]. *)
Variable exn_str : exn -> pystr.

(** Language resolution, written the same way in [chat] (399-402) and in
    [text_to_speech] (662-665). *)
Definition resolve_language (language : option pystr) (text : pystr) : pystr :=
  if bool_decide (language = Some (py "auto")) then detect_language text
  else if py_in language [py "en"; py "ar"] then default (py "en") language
  else py "en".

Definition base_template (detected_lang : pystr) : pystr :=
  if decide (detected_lang = py "ar") then DOCTOR_SYSTEM_PROMPT_AR
  else DOCTOR_SYSTEM_PROMPT_EN.

(** The report used for the biomarker context (415-418): the precomputed
    analysis, else the oracle's answer on the raw data. *)
Definition resolve_biomarker_report (request : ChatRequest.t) : value :=
  let biomarker_report := of_optional (ChatRequest.biomarker_analysis request) in
  if negb (truthy biomarker_report)
     && truthy (of_optional (ChatRequest.biomarker_data request))
  then call_biomarker_api (default [] (ChatRequest.biomarker_data request))
  else biomarker_report.

(** Lines 406-423: the system prompt and the report it was built with. *)
Definition chat_system_prompt (request : ChatRequest.t) (detected_lang : pystr)
  : result (pystr * value) :=
  let system_prompt := base_template detected_lang in
  system_prompt <-
    (if truthy (of_optional (ChatRequest.patient_data request)) then
       patient_context <-
         format_patient_history (default [] (ChatRequest.patient_data request))
                                detected_lang ;;
       Ok (system_prompt ++ patient_context)
     else Ok system_prompt) ;;
  let biomarker_report := resolve_biomarker_report request in
  system_prompt <-
    (if truthy biomarker_report then
       biomarker_context <- format_biomarker_context biomarker_report detected_lang ;;
       Ok (system_prompt ++ biomarker_context)
     else Ok system_prompt) ;;
  Ok (system_prompt, biomarker_report).

(** One entry of [contents]: [{"role": role, "parts": [{"text": text}]}]. *)
Definition turn (role text : pystr) : value :=
  VDict [(py "role", VStr role);
         (py "parts", VList [VDict [(py "text", VStr text)]])].

Definition model_role (msg : ChatMessage.t) : pystr :=
  if decide (ChatMessage.role msg = py "user") then py "user" else py "model".

(** Lines 426-435: the list is built by successive [append]s. *)
Definition build_contents (system_prompt : pystr)
    (chat_history : option (list ChatMessage.t)) (message : pystr) : list value :=
  let contents := [turn (py "user") system_prompt] in
  let contents :=
    match chat_history with
    | Some ((_ :: _) as history) =>
      fold_left
        (fun contents msg => contents ++ [turn (model_role msg) (ChatMessage.text msg)])
        history contents
    | _ => contents
    end in
  contents ++ [turn (py "user") (strip message)].

Definition error_response (e : exn) : response :=
  JSONResponse (VDict [(py "error", VStr (exn_str e))]) 500.

Definition is_not_None {A} (x : option A) : bool :=
  match x with Some _ => true | None => false end.

(** The handler, together with the list of [contents] it passed to the
    model oracle (empty when the oracle was not reached). *)
Definition chat (request : ChatRequest.t) : list (list value) * response :=
  let detected_lang :=
    resolve_language (ChatRequest.language request) (ChatRequest.message request) in
  match chat_system_prompt request detected_lang with
  | Raise e => ([], error_response e)
  | Ok (system_prompt, biomarker_report) =>
    let contents :=
      build_contents system_prompt (ChatRequest.chat_history request)
                     (ChatRequest.message request) in
    ([contents],
     match generate_content contents with
     | Raise e => error_response e
     | Ok text =>
       let reply_text := strip text in
       let response_lang := detect_language reply_text in
       JSONResponse
         (VDict [(py "reply", VStr reply_text);
                 (py "detected_language", VStr detected_lang);
                 (py "response_language", VStr response_lang);
                 (py "has_patient_data",
                  VBool (is_not_None (ChatRequest.patient_data request)));
                 (py "has_biomarker_report",
                  VBool (match biomarker_report with VNone => false | _ => true end))])
         200
     end)
  end.

(** ** Text to speech (app.py 46-50, 657-720) *)

Definition EDGE_TTS_VOICES : list (pystr * pystr) :=
  [(py "en", py "en-US-AriaNeural"); (py "ar", py "ar-SA-ZariyahNeural")].

Fixpoint voices_get (voices : list (pystr * pystr)) (k default : pystr) : pystr :=
  match voices with
  | [] => default
  | (k', v) :: r => if decide (k' = k) then v else voices_get r k default
  end.

(** [edge_tts.Communicate(text, voice).stream()], run to its end. *)
Variable edge_tts_stream : pystr -> pystr -> result (list Chunk.t).

(** The character class of the handler's second check: U+0600-U+06FF. *)
Definition tts_arabic_check (c : Z) : bool := in_range 0x0600 0x06FF c.

(** Lines 662-669. *)
Definition tts_language (req : TTSRequest.t) : pystr :=
  let detected_lang := resolve_language (TTSRequest.language_code req) (TTSRequest.text req) in
  if re_search tts_arabic_check (TTSRequest.text req) then py "ar" else detected_lang.

(** Line 672. *)
Definition tts_voice (req : TTSRequest.t) (detected_lang : pystr) : pystr :=
  match TTSRequest.voice req with
  | Some v =>
    if str_truthy v then v
    else voices_get EDGE_TTS_VOICES detected_lang (voices_get EDGE_TTS_VOICES (py "en") [])
  | None => voices_get EDGE_TTS_VOICES detected_lang (voices_get EDGE_TTS_VOICES (py "en") [])
  end.

(** [StreamingResponse] encodes each header name and value as latin-1. *)
Definition header_encodable (s : pystr) : bool :=
  forallb (fun c => in_range 0 0xFF c) s.

Definition write_audio (audio_buffer : list Z) (chunk : Chunk.t) : list Z :=
  if decide (Chunk.type chunk = py "audio") then audio_buffer ++ Chunk.data chunk
  else audio_buffer.

Definition text_to_speech (req : TTSRequest.t) : response :=
  let detected_lang := tts_language req in
  let voice := tts_voice req detected_lang in
  let outcome :=
    chunks <- edge_tts_stream (strip (TTSRequest.text req)) voice ;;
    let audio_buffer := fold_left write_audio chunks [] in
    if (Z.of_nat (length audio_buffer) =? 0) then
      Raise (Exception (py "No audio data generated"))
    else
      let headers :=
        [(py "Content-Disposition", py "inline; filename=speech.mp3");
         (py "X-Language", detected_lang);
         (py "X-Voice", voice);
         (py "Cache-Control", py "no-cache")] in
      if forallb (fun kv => header_encodable (fst kv) && header_encodable (snd kv)) headers
      then Ok (StreamingResponse audio_buffer (py "audio/mpeg") headers)
      else Raise (Exception (py "UnicodeEncodeError")) in
  match outcome with
  | Ok r => r
  | Raise e =>
    JSONResponse (VDict [(py "error", VStr (exn_str e));
                         (py "type", VStr (py "tts_error"));
                         (py "details", VStr (py "Text-to-speech generation failed"))]) 500
  end.

(** ** Speech to text (app.py 565-652) *)

(** Text that [json] reads and writes. *)
Variable json_text : Type.
Variable json_loads : json_text -> result value.

Variable STT_AVAILABLE : bool.
Variable recognizer : Type.
Variable KaldiRecognizer : vosk_model -> Z -> result recognizer.
Variable AcceptWaveform : recognizer -> list Z -> recognizer.
Variable FinalResult : recognizer -> json_text.

(** The [while True] loop of lines 625-629; [fuel] bounds the iterations. *)
Fixpoint feed (fuel : nat) (rec : recognizer) (wf : list Z) : recognizer :=
  match fuel with
  | O => rec
  | S fuel =>
    let data := firstn 4000 wf in
    if (Z.of_nat (length data) =? 0) then rec
    else feed fuel (AcceptWaveform rec data) (skipn 4000 wf)
  end.

(** Line 621. *)
Definition stt_detected_language (language : pystr) : pystr :=
  if decide (language <> py "auto") then language else py "en".

(** Line 622. *)
Definition stt_model (detected_language : pystr) : vosk_model :=
  if decide (detected_language = py "ar") then vosk_model_ar else vosk_model_en.

(** Lines 621-640, once the WAV file is open and validated. *)
Definition recognize (wf : wav_file) (language : pystr) : result response :=
  let detected_language := stt_detected_language language in
  let model := stt_model detected_language in
  rec <- KaldiRecognizer model (getframerate wf) ;;
  let rec := feed (S (length (frames wf))) rec (frames wf) in
  final_result <- json_loads (FinalResult rec) ;;
  text <- py_get_default final_result (py "text") (VStr []) ;;
  transcript <- py_strip text ;;
  Ok (JSONResponse
        (VDict [(py "transcript", VStr transcript);
                (py "detected_language", VStr detected_language);
                (py "status",
                 VStr (if str_truthy transcript then py "success" else py "no_speech"))])
        200).

Definition run_ffmpeg (env : stt_env) : M Z :=
  fun st =>
    let wrote (b : bool) :=
      {| files := if b then {[tmp_wav_name env]} ∪ files st else files st;
         tmp_input_path := tmp_input_path st;
         tmp_wav_path := tmp_wav_path st |} in
    match ffmpeg env with
    | FfmpegExit returncode b => (wrote b, Ok returncode)
    | FfmpegTimeout b => (wrote b, Raise TimeoutExpired)
    | FfmpegNotRun e => (st, Raise e)
    end.

(** The body of the [try] (lines 601-640). *)
Definition stt_try (env : stt_env) (language : pystr) : M response :=
  _ <~ create_file (tmp_input_name env) ;;
  content <~ lift (upload_read env) ;;
  _ <~ lift (tmp_input_write env) ;;
  _ <~ set_tmp_input_path (tmp_input_name env) ;;
  _ <~ set_tmp_wav_path (tmp_wav_name env) ;;
  returncode <~ run_ffmpeg env ;;
  if negb (returncode =? 0) then
    ret (JSONResponse (VDict [(py "error", VStr (py "Audio conversion failed"))]) 500)
  else
    wf <~ lift (wave_open env) ;;
    if negb (getnchannels wf =? 1) || negb (getsampwidth wf =? 2) then
      ret (JSONResponse (VDict [(py "error", VStr (py "Invalid WAV format"))]) 400)
    else lift (recognize wf language).

(** One round of the [finally] loop (lines 648-652). *)
Definition cleanup_path (env : stt_env) (fs : gset pystr) (path : option pystr) : gset pystr :=
  match path with
  | Some p =>
    if str_truthy p && bool_decide (p ∈ fs) then
      if remove_ok env p then fs ∖ {[p]} else fs
    else fs
  | None => fs
  end.

(** The handler: the files left behind and the response. *)
Definition speech_to_text (env : stt_env) (language : pystr) (fs : gset pystr)
  : gset pystr * response :=
  if negb STT_AVAILABLE then
    (fs, JSONResponse
           (VDict [(py "error",
                    VStr (py "Speech-to-text not available. Vosk models not found."))])
           503)
  else
    let '(st, outcome) :=
      stt_try env language
        {| files := fs; tmp_input_path := None; tmp_wav_path := None |} in
    let resp :=
      match outcome with
      | Ok resp => resp
      | Raise TimeoutExpired =>
        JSONResponse (VDict [(py "error", VStr (py "Audio processing timeout"))]) 500
      | Raise e => error_response e
      end in
    (fold_left (cleanup_path env) [tmp_input_path st; tmp_wav_path st] (files st), resp).

(** The request gets as far as recognition on the open file [wf]. *)
Definition reaches_recognition (env : stt_env) (wf : wav_file) : Prop :=
  STT_AVAILABLE = true
  /\ (exists content, upload_read env = Ok content)
  /\ tmp_input_write env = Ok tt
  /\ (exists wrote, ffmpeg env = FfmpegExit 0 wrote)
  /\ wave_open env = Ok wf
  /\ getnchannels wf = 1
  /\ getsampwidth wf = 2.

(** ** Rendering of responses *)

Definition py_startswith (s prefix : pystr) : bool := is_prefix prefix s.

Definition py_endswith (s suffix : pystr) : bool := is_prefix (rev suffix) (rev s).

(** Can a string be encoded as UTF-8 (no surrogate code point)? *)
Definition str_encodable (s : pystr) : bool :=
  forallb (fun c => negb (in_range 0xD800 0xDFFF c)) s.

(** Can the strings of a document be written to a UTF-8 text file? *)
Fixpoint utf8_encodable (x : value) : bool :=
  match x with
  | VStr s => str_encodable s
  | VList l => forallb utf8_encodable l
  | VDict d =>
    forallb (fun kv => let '(k, v) := kv in str_encodable k && utf8_encodable v) d
  | _ => true
  end.

(** Can [JSONResponse] render the content? It serialises with
    [allow_nan=False] and encodes the text as UTF-8. *)
Fixpoint renderable (x : value) : bool :=
  match x with
  | VFloat f => PrimFloat.is_finite f
  | VStr s => str_encodable s
  | VList l => forallb renderable l
  | VDict d => forallb (fun kv => let '(k, v) := kv in str_encodable k && renderable v) d
  | _ => true
  end.

(** [JSONResponse(content, status_code)] built outside any [try]: a content
    that cannot be rendered raises. *)
Definition json_response (content : value) (status_code : Z) : result response :=
  if renderable content then Ok (JSONResponse content status_code)
  else Raise (Exception (py "ValueError")).

(** The same inside a [try] whose handler answers 500 with [str(e)]. *)
Definition json_response_or_500 (content : value) (status_code : Z) : response :=
  match json_response content status_code with
  | Ok r => r
  | Raise e => error_response e
  end.

(** ** Chat-history store (app.py 490-560) *)

Variable PATIENT_DATA_FOLDER : pystr.

(** [str(Path(folder) / name)]. *)
Variable path_join : pystr -> pystr -> pystr.

(** [json.dump(data, f, ensure_ascii=False, indent=2)]: the text written, and
    what had reached the file if it raised. *)
Variable json_dumps : value -> result json_text.
Variable partial_dump : value -> json_text.

(** [open(path, 'w')] refused (missing directory, permissions). *)
Variable open_w_error : pystr -> option exn.

(** Why a path that leads to no file cannot even be examined: the error that
    [os.stat(path)] raises and [Path.exists()] lets through (name too long,
    a parent that may not be searched); [None] when the path is simply
    absent and [exists()] answers [False]. *)
Variable stat_error : pystr -> option exn.

(** [datetime.now().isoformat()] at the time of the save. *)
Variable now_isoformat : pystr.

(** [json.dumps(str(Path(PATIENT_DATA_FOLDER)))], the placeholder of line 523. *)
Variable folder_json : pystr.

Definition chat_file (patient_name : pystr) : pystr :=
  path_join PATIENT_DATA_FOLDER (patient_name ++ py "_chat.json").

Definition get_chat_history (fs : gmap pystr json_text) (patient_name : pystr) : response :=
  let outcome :=
    match fs !! chat_file patient_name with
    | None =>
      match stat_error (chat_file patient_name) with
      | Some e => Raise e
      | None =>
        json_response
          (VDict [(py "patient_name", VStr patient_name);
                  (py "chat_history", VList []);
                  (py "message_count", VInt 0)])
          200
      end
    | Some f =>
      data <- json_loads f ;;
      history <- py_get_default data (py "chat_history") (VList []) ;;
      _ <- py_len history ;;
      json_response data 200
    end in
  match outcome with
  | Ok r => r
  | Raise e => error_response e
  end.

Definition message_value (msg : ChatMessage.t) : value :=
  VDict [(py "role", VStr (ChatMessage.role msg)); (py "text", VStr (ChatMessage.text msg))].

(** The document of lines 519-528. *)
Definition chat_document (request : SaveChatRequest.t) : dict :=
  let data :=
    [(py "patient_name", VStr (SaveChatRequest.patient_name request));
     (py "chat_history", VList (map message_value (SaveChatRequest.chat_history request)));
     (py "message_count",
      VInt (Z.of_nat (length (SaveChatRequest.chat_history request))));
     (py "last_updated", VStr folder_json)] in
  dict_set data (py "last_updated") (VStr now_isoformat).

(** [json.dump(data, f, ensure_ascii=False, indent=2)] into the file opened
    with [encoding='utf-8']: a string that cannot be encoded raises. *)
Definition dump_to_file (data : value) : result json_text :=
  if utf8_encodable data then json_dumps data
  else Raise (Exception (py "UnicodeEncodeError")).

Definition save_chat_history (fs : gmap pystr json_text) (request : SaveChatRequest.t)
  : gmap pystr json_text * response :=
  let path := chat_file (SaveChatRequest.patient_name request) in
  let data := chat_document request in
  match open_w_error path with
  | Some e => (fs, error_response e)
  | None =>
    match dump_to_file (VDict data) with
    | Raise e => (<[path := partial_dump (VDict data)]> fs, error_response e)
    | Ok f =>
      (<[path := f]> fs,
       json_response_or_500
         (VDict [(py "success", VBool true);
                 (py "patient_name", VStr (SaveChatRequest.patient_name request));
                 (py "message_count",
                  VInt (Z.of_nat (length (SaveChatRequest.chat_history request))));
                 (py "file", VStr path)])
         200)
    end
  end.

(** ** Patient files and the remaining handlers (app.py 79-94, 458-481,
      546-560, 724-765) *)

Definition patient_file (patient_name : pystr) : pystr :=
  path_join PATIENT_DATA_FOLDER (patient_name ++ py ".json").

(** [load_patient_data]: [None] when the file is missing or cannot be read
    as JSON; the existence test of line 83 stands before the [try], so its
    error escapes. *)
Definition load_patient_data (fs : gmap pystr json_text) (patient_name : pystr)
  : result value :=
  match fs !! patient_file patient_name with
  | None =>
    match stat_error (patient_file patient_name) with
    | Some e => Raise e
    | None => Ok VNone
    end
  | Some f =>
    match json_loads f with
    | Ok data => Ok data
    | Raise _ => Ok VNone
    end
  end.

(** [GET /patient/{patient_name}]; the handler has no [try] of its own. *)
Definition get_patient_data (fs : gmap pystr json_text) (patient_name : pystr)
  : result response :=
  patient_data <- load_patient_data fs patient_name ;;
  if negb (truthy patient_data) then
    json_response
      (VDict [(py "error", VStr (py "Patient " ++ patient_name ++ py " not found"))])
      404
  else json_response patient_data 200.

(** [GET /patients], given the stems of the files that [glob("*.json")]
    found in the folder (or the exception it raised). *)
Definition list_patients (stems : result (list pystr)) : response :=
  match stems with
  | Raise e => error_response e
  | Ok stems =>
    let patients := List.filter (fun stem => negb (py_endswith stem (py "_chat"))) stems in
    json_response_or_500
      (VDict [(py "patients", VList (map VStr patients));
              (py "count", VInt (Z.of_nat (length patients)));
              (py "folder", VStr PATIENT_DATA_FOLDER)])
      200
  end.

(** [os.remove(path)] refused. *)
Variable remove_error : pystr -> option exn.

Definition delete_chat_history (fs : gmap pystr json_text) (patient_name : pystr)
  : gmap pystr json_text * response :=
  let path := chat_file patient_name in
  match fs !! path with
  | Some _ =>
    match remove_error path with
    | Some e => (fs, error_response e)
    | None =>
      (delete path fs,
       json_response_or_500
         (VDict [(py "success", VBool true);
                 (py "message", VStr (py "Chat history deleted for " ++ patient_name))])
         200)
    end
  | None =>
    match stat_error path with
    | Some e => (fs, error_response e)
    | None =>
      (fs, JSONResponse
             (VDict [(py "success", VBool true);
                     (py "message", VStr (py "No chat history found"))])
             200)
    end
  end.

(** One entry of the voice catalogue response (lines 742-747, 749-754). *)
Definition voice_entry (voice name gender : value) (locale : pystr) : result value :=
  local_name <- py_get_default voice (py "LocalName") name ;;
  Ok (VDict [(py "name", name);
             (py "locale", VStr locale);
             (py "gender", gender);
             (py "display_name",
              VStr (py_str local_name ++ py " (" ++ py_str gender ++ py ")"))]).

(** One round of the loop of lines 736-754 over the two lists
    [medical_voices["english"]] and [medical_voices["arabic"]]. *)
Definition add_voice (medical_voices : list value * list value) (voice : value)
  : result (list value * list value) :=
  locale <- py_get_default voice (py "Locale") (VStr []) ;;
  name <- py_get_default voice (py "ShortName") (VStr []) ;;
  gender <- py_get_default voice (py "Gender") (VStr []) ;;
  match locale with
  | VStr locale =>
    if py_startswith locale (py "en-") then
      entry <- voice_entry voice name gender locale ;;
      Ok (fst medical_voices ++ [entry], snd medical_voices)
    else if py_startswith locale (py "ar-") then
      entry <- voice_entry voice name gender locale ;;
      Ok (fst medical_voices, snd medical_voices ++ [entry])
    else Ok medical_voices
  | _ => Raise AttributeError
  end.

Fixpoint collect_voices (voices : list value) (medical_voices : list value * list value)
  : result (list value * list value) :=
  match voices with
  | [] => Ok medical_voices
  | voice :: r =>
    medical_voices <- add_voice medical_voices voice ;;
    collect_voices r medical_voices
  end.

(** [GET /tts/voices], given what [edge_tts.list_voices()] returned. *)
Definition get_available_voices (list_voices : result (list value)) : response :=
  let outcome :=
    voices <- list_voices ;;
    medical_voices <- collect_voices voices ([], []) ;;
    json_response
      (VDict [(py "default_voices",
               VDict (map (fun kv => (fst kv, VStr (snd kv))) EDGE_TTS_VOICES));
              (py "available_voices",
               VDict [(py "english", VList (fst medical_voices));
                      (py "arabic", VList (snd medical_voices))]);
              (py "total_en", VInt (Z.of_nat (length (fst medical_voices))));
              (py "total_ar", VInt (Z.of_nat (length (snd medical_voices))))])
      200 in
  match outcome with
  | Ok r => r
  | Raise e => error_response e
  end.

(** The catalogue entry of a voice whose locale is [locale], written
    directly, and the family test. *)
Definition voice_locale (voice : value) : pystr :=
  match voice with
  | VDict d =>
    match dict_get_default d (py "Locale") (VStr []) with
    | VStr locale => locale
    | _ => []
    end
  | _ => []
  end.

Definition in_family (prefix : pystr) (voice : value) : bool :=
  py_startswith (voice_locale voice) prefix.

Definition entry_of (voice : value) : value :=
  match voice with
  | VDict d =>
    let name := dict_get_default d (py "ShortName") (VStr []) in
    let gender := dict_get_default d (py "Gender") (VStr []) in
    VDict [(py "name", name);
           (py "locale", VStr (voice_locale voice));
           (py "gender", gender);
           (py "display_name",
            VStr (py_str (dict_get_default d (py "LocalName") name)
                  ++ py " (" ++ py_str gender ++ py ")"))]
  | _ => VNone
  end.

(** A catalogue item as [edge_tts] documents it: a dictionary whose locale,
    when present, is a string. *)
Definition voice_ok (voice : value) : Prop :=
  exists d, voice = VDict d
            /\ exists locale, dict_get_default d (py "Locale") (VStr []) = VStr locale.

(** A patient record in the shape of the data model: personal info a
    dictionary, the four lists lists, the vital signs a dictionary; any of
    them may be missing or empty. *)
Definition is_dict_or_falsy (x : value) : bool :=
  match x with
  | VDict _ => true
  | _ => negb (truthy x)
  end.

Definition is_list_or_falsy (x : value) : bool :=
  match x with
  | VList _ => true
  | _ => negb (truthy x)
  end.

Definition record_ok (patient_data : dict) : bool :=
  is_dict_or_falsy (dict_get patient_data (py "personal_info"))
  && is_list_or_falsy (dict_get patient_data (py "medical_history"))
  && is_list_or_falsy (dict_get patient_data (py "medications"))
  && is_list_or_falsy (dict_get patient_data (py "allergies"))
  && is_list_or_falsy (dict_get patient_data (py "previous_visits"))
  && is_dict_or_falsy (dict_get patient_data (py "vital_signs")).

(** The fields [format_patient_history] reads. *)
Definition patient_fields : list pystr :=
  [py "personal_info"; py "medical_history"; py "medications"; py "allergies";
   py "previous_visits"; py "vital_signs"].

(** The numbered lines of the biomarker block, written directly. *)
Fixpoint numbered_lines (i : Z) (xs : list value) : pystr :=
  match xs with
  | [] => []
  | x :: r => str_of_Z i ++ py ". " ++ py_str x ++ NL ++ numbered_lines (i + 1) r
  end.

(** The audio bytes of a stream: the data of its audio chunks, in order. *)
Definition audio_of (chunks : list Chunk.t) : list Z :=
  flat_map (fun chunk =>
              if decide (Chunk.type chunk = py "audio") then Chunk.data chunk else [])
           chunks.

(** ** Theorems *)

(** *** The string model on examples *)

Example py_ascii : py "en" = [101; 110].
Proof. reflexivity. Qed.

Example py_two_bytes : py "é" = [0xE9].
Proof. reflexivity. Qed.

Example py_arabic : py "عندي" = [0x0639; 0x0646; 0x062F; 0x064A].
Proof. reflexivity. Qed.

Example py_warning_sign : py "⚠️" = [0x26A0; 0xFE0F].
Proof. reflexivity. Qed.

Example py_four_bytes : py "👤" = [0x1F464].
Proof. reflexivity. Qed.

Example strip_both_ends : strip ([32; 9] ++ py "a b" ++ [10; 0xA0]) = py "a b".
Proof. reflexivity. Qed.

Example strip_blank : strip [32; 10; 32] = [].
Proof. reflexivity. Qed.

Example str_of_Z_examples :
  str_of_Z 0 = py "0" /\ str_of_Z 41 = py "41" /\ str_of_Z (-5) = py "-5".
Proof. repeat split; reflexivity. Qed.

Example last_n_short : last_n 3 [1; 2] = [1; 2].
Proof. reflexivity. Qed.

Example last_n_long : last_n 3 [1; 2; 3; 4; 5] = [3; 4; 5].
Proof. reflexivity. Qed.

(** *** Language detector *)

Lemma in_range_spec lo hi c : in_range lo hi c = true <-> lo <= c <= hi.
Proof. unfold in_range. rewrite andb_true_iff, !Z.leb_le. reflexivity. Qed.

Lemma arabic_pattern_spec c : arabic_pattern c = true <-> ArabicScript c.
Proof.
  unfold arabic_pattern, ArabicScript.
  rewrite !orb_true_iff, !in_range_spec.
  split; [intros [[H|H]|H] | intros [H|[H|H]]]; auto.
Qed.

Lemma re_search_spec cls text :
  re_search cls text = true <-> exists c, In c text /\ cls c = true.
Proof. apply existsb_exists. Qed.

Lemma no_arabic_not_found text :
  re_search arabic_pattern text = false ->
  ~ exists c, In c text /\ ArabicScript c.
Proof.
  intros Hs (c & Hc & Hp). apply arabic_pattern_spec in Hp.
  assert (re_search arabic_pattern text = true) as Ht
    by (apply re_search_spec; exists c; split; assumption).
  congruence.
Qed.

Lemma detect_language_tag (text : pystr) :
  detect_language text = py "en" \/ detect_language text = py "ar".
Proof.
  unfold detect_language, detect_language_body.
  destruct (re_search arabic_pattern text); [now right|].
  destruct (detect text) as [lang|e]; simpl; [|now left].
  destruct (decide (lang = py "ar")); [now right | now left].
Qed.

Lemma detect_language_arabic (text : pystr) :
  (exists c, In c text /\ ArabicScript c) -> detect_language text = py "ar".
Proof.
  intros Har. unfold detect_language, detect_language_body.
  destruct (re_search arabic_pattern text) eqn:Hs; [reflexivity|].
  now apply no_arabic_not_found in Hs.
Qed.

Lemma detect_language_fail_open (text : pystr) (e : exn) :
  ~ (exists c, In c text /\ ArabicScript c) ->
  detect text = Raise e -> detect_language text = py "en".
Proof.
  intros Hno He. unfold detect_language, detect_language_body.
  destruct (re_search arabic_pattern text) eqn:Hs.
  - exfalso. apply Hno. apply re_search_spec in Hs as (c & Hc & Hp).
    exists c. split; [assumption|]. now apply arabic_pattern_spec.
  - now rewrite He.
Qed.

(** C1: [detect_language] always answers en or ar; any character of the
    three Arabic blocks forces ar whatever the statistical detector says;
    when the statistical path runs and fails the answer is en. *)
Theorem detect_language_total (text : pystr) :
  (detect_language text = py "en" \/ detect_language text = py "ar")
  /\ ((exists c, In c text /\ ArabicScript c) -> detect_language text = py "ar")
  /\ (forall e, ~ (exists c, In c text /\ ArabicScript c) ->
        detect text = Raise e -> detect_language text = py "en").
Proof.
  split; [apply detect_language_tag|].
  split; [apply detect_language_arabic|].
  intros e. apply detect_language_fail_open.
Qed.

(** *** Conversation assembly *)

Lemma fold_left_append {A B} (f : A -> B) (xs : list A) (init : list B) :
  fold_left (fun acc x => acc ++ [f x]) xs init = init ++ map f xs.
Proof.
  revert init. induction xs as [|x xs IH]; intros init; simpl.
  - now rewrite app_nil_r.
  - rewrite IH, <- app_assoc. reflexivity.
Qed.

Lemma build_contents_shape system_prompt chat_history message :
  build_contents system_prompt chat_history message
  = turn (py "user") system_prompt
      :: map (fun msg => turn (model_role msg) (ChatMessage.text msg))
             (default [] chat_history)
      ++ [turn (py "user") (strip message)].
Proof.
  unfold build_contents.
  destruct chat_history as [[|msg history]|]; [reflexivity| |reflexivity].
  simpl.
  rewrite (fold_left_append
             (fun msg => turn (model_role msg) (ChatMessage.text msg))).
  reflexivity.
Qed.

Lemma build_contents_length system_prompt chat_history message :
  length (build_contents system_prompt chat_history message)
  = (length (default [] chat_history) + 2)%nat.
Proof.
  rewrite build_contents_shape. simpl.
  rewrite length_app, length_map. simpl. lia.
Qed.


(** *** System-prompt composition *)

Lemma patient_footer_nonempty (context : pystr) : context ++ patient_footer <> [].
Proof.
  intros H. apply app_eq_nil in H as [_ H]. discriminate H.
Qed.

Lemma format_patient_history_nonempty patient_data language block :
  truthy (VDict patient_data) = true ->
  format_patient_history patient_data language = Ok block -> block <> [].
Proof.
  unfold format_patient_history. intros ->. simpl.
  destruct (if decide (language = py "ar") then _ else _) as [context|e]; simpl;
    intros H; inversion H. apply patient_footer_nonempty.
Qed.

Lemma add_numbered_extends i xs context :
  exists tail, add_numbered i xs context = context ++ tail.
Proof.
  revert i context. induction xs as [|x xs IH]; intros i context;
    cbn [add_numbered].
  - exists []. now rewrite app_nil_r.
  - destruct (IH (i + 1) (context ++ str_of_Z i ++ py ". " ++ py_str x ++ NL))
      as [tail ->].
    eexists. rewrite <- app_assoc. reflexivity.
Qed.

Lemma biomarker_block_nonempty title heading report block :
  biomarker_block title heading report = Ok block -> block <> [].
Proof.
  unfold biomarker_block, bind.
  destruct (py_get report _) as [summary|]; [|discriminate].
  destruct (truthy summary); [|intros H; inversion H; discriminate].
  destruct (py_subscript report _) as [summary'|]; [|discriminate].
  destruct (py_get summary' _) as [top|]; [|discriminate].
  destruct (truthy top); [|intros H; inversion H; discriminate].
  destruct (py_subscript summary' _) as [xs|]; [|discriminate].
  destruct (py_iter xs) as [items|]; [|discriminate].
  intros [= <-].
  match goal with
  | |- add_numbered ?i ?xs ?c <> [] =>
    destruct (add_numbered_extends i xs c) as [tail ->]
  end.
  discriminate.
Qed.

Lemma format_biomarker_context_nonempty report language block :
  truthy report = true ->
  format_biomarker_context report language = Ok block -> block <> [].
Proof.
  unfold format_biomarker_context. intros ->. simpl.
  destruct (decide (language = py "ar")); apply biomarker_block_nonempty.
Qed.

(** The shape of every composed prompt: template, patient block, biomarker
    block, each block present exactly when its source is truthy. *)
Lemma chat_system_prompt_structure (request : ChatRequest.t)
    (detected_lang system_prompt : pystr) (report : value) :
  chat_system_prompt request detected_lang = Ok (system_prompt, report) ->
  report = resolve_biomarker_report request
  /\ exists patient_block biomarker_block,
      system_prompt = base_template detected_lang ++ patient_block ++ biomarker_block
      /\ (truthy (of_optional (ChatRequest.patient_data request)) = true ->
          format_patient_history (default [] (ChatRequest.patient_data request))
                                 detected_lang = Ok patient_block
          /\ patient_block <> [])
      /\ (truthy (of_optional (ChatRequest.patient_data request)) = false ->
          patient_block = [])
      /\ (truthy report = true ->
          format_biomarker_context report detected_lang = Ok biomarker_block
          /\ biomarker_block <> [])
      /\ (truthy report = false -> biomarker_block = []).
Proof.
  unfold chat_system_prompt. intros H.
  assert (Hpn : forall pb,
             truthy (of_optional (ChatRequest.patient_data request)) = true ->
             format_patient_history (default [] (ChatRequest.patient_data request))
                                    detected_lang = Ok pb -> pb <> []).
  { intros pb Hp Hfp. eapply format_patient_history_nonempty; [|exact Hfp].
    destruct (ChatRequest.patient_data request); [exact Hp|discriminate]. }
  destruct (truthy (of_optional (ChatRequest.patient_data request))) eqn:Hp;
    [destruct (format_patient_history _ detected_lang) as [pb|e] eqn:Hfp;
       [|discriminate]|];
    cbn [bind] in H;
    (destruct (truthy (resolve_biomarker_report request)) eqn:Hb;
     [destruct (format_biomarker_context _ detected_lang) as [bb|e'] eqn:Hfb;
        [|discriminate]|]);
    cbn [bind] in H; injection H as <- <-; (split; [reflexivity|]).
  - exists pb, bb. split; [now rewrite app_assoc|].
    split; [intros _; split; [reflexivity | now apply Hpn]|].
    split; [discriminate|].
    split; [|congruence].
    intros Hr. split; [exact Hfb|].
    eapply format_biomarker_context_nonempty; eassumption.
  - exists pb, []. split; [now rewrite app_nil_r|].
    split; [intros _; split; [reflexivity | now apply Hpn]|].
    split; [discriminate|].
    split; [congruence | reflexivity].
  - exists [], bb. split; [reflexivity|].
    split; [discriminate|]. split; [reflexivity|].
    split; [|congruence].
    intros Hr. split; [exact Hfb|].
    eapply format_biomarker_context_nonempty; eassumption.
  - exists [], []. split; [now rewrite app_nil_r|].
    split; [discriminate|]. split; [reflexivity|].
    split; [congruence | reflexivity].
Qed.

(** C3: a composed system prompt begins with the template selected by the
    language, the Arabic one for ar and the English one otherwise, followed
    by the patient block exactly when the record is non-empty, followed by
    the biomarker block exactly when a report is available. The same
    request without biomarker input gives the template and patient block
    alone, and without the patient record the template and biomarker block
    alone: context is only ever added after what was there, in this order. *)
Theorem system_prompt_append_only (request : ChatRequest.t)
    (detected_lang system_prompt : pystr) (report : value) :
  chat_system_prompt request detected_lang = Ok (system_prompt, report) ->
  report = resolve_biomarker_report request
  /\ exists patient_block biomarker_block,
      system_prompt
      = (if decide (detected_lang = py "ar") then DOCTOR_SYSTEM_PROMPT_AR
         else DOCTOR_SYSTEM_PROMPT_EN)
        ++ patient_block ++ biomarker_block
      /\ (truthy (of_optional (ChatRequest.patient_data request)) = true ->
          format_patient_history (default [] (ChatRequest.patient_data request))
                                 detected_lang = Ok patient_block
          /\ patient_block <> [])
      /\ (truthy (of_optional (ChatRequest.patient_data request)) = false ->
          patient_block = [])
      /\ (truthy report = true ->
          format_biomarker_context report detected_lang = Ok biomarker_block
          /\ biomarker_block <> [])
      /\ (truthy report = false -> biomarker_block = [])
      /\ chat_system_prompt (without_biomarker request) detected_lang
         = Ok ((if decide (detected_lang = py "ar") then DOCTOR_SYSTEM_PROMPT_AR
                else DOCTOR_SYSTEM_PROMPT_EN) ++ patient_block, VNone)
      /\ chat_system_prompt (without_patient request) detected_lang
         = Ok ((if decide (detected_lang = py "ar") then DOCTOR_SYSTEM_PROMPT_AR
                else DOCTOR_SYSTEM_PROMPT_EN) ++ biomarker_block, report).
Proof.
  intros H.
  destruct (chat_system_prompt_structure _ _ _ _ H)
    as (-> & pb & bb & -> & Hp1 & Hp0 & Hb1 & Hb0).
  split; [reflexivity|]. exists pb, bb.
  do 5 (split; [first [reflexivity | assumption]|]).
  split.
  - unfold chat_system_prompt, resolve_biomarker_report. cbn.
    destruct (truthy (of_optional (ChatRequest.patient_data request))).
    + destruct (Hp1 eq_refl) as [-> _]. reflexivity.
    + rewrite (Hp0 eq_refl), app_nil_r. reflexivity.
  - unfold chat_system_prompt. cbn.
    change (resolve_biomarker_report (without_patient request))
      with (resolve_biomarker_report request).
    destruct (truthy (resolve_biomarker_report request)).
    + destruct (Hb1 eq_refl) as [-> _]. reflexivity.
    + rewrite (Hb0 eq_refl), app_nil_r. reflexivity.
Qed.

(** *** Synthesis language *)

Lemma resolve_language_tag language text :
  resolve_language language text = py "en" \/ resolve_language language text = py "ar".
Proof.
  unfold resolve_language. case_bool_decide.
  - apply detect_language_tag.
  - unfold py_in. simpl.
    repeat case_bool_decide; subst; simpl; auto.
Qed.

(** X25: what the handler does guarantee: a character of U+0600-U+06FF in
    the text forces ar, whatever language was requested. *)
Lemma tts_language_basic_block (req : TTSRequest.t) :
  (exists c, In c (TTSRequest.text req) /\ 0x0600 <= c <= 0x06FF) ->
  tts_language req = py "ar".
Proof.
  intros (c & Hc & Hr). unfold tts_language.
  assert (re_search tts_arabic_check (TTSRequest.text req) = true) as ->.
  { apply re_search_spec. exists c. split; [assumption|].
    now apply in_range_spec. }
  reflexivity.
Qed.

(** With language "auto" the three blocks are all recognised, through
    [detect_language]. *)
Lemma tts_language_auto (req : TTSRequest.t) :
  TTSRequest.language_code req = Some (py "auto") ->
  (exists c, In c (TTSRequest.text req) /\ ArabicScript c) ->
  tts_language req = py "ar".
Proof.
  intros Hauto Har. unfold tts_language, resolve_language.
  rewrite Hauto. rewrite bool_decide_eq_true_2 by reflexivity.
  rewrite (detect_language_arabic (TTSRequest.text req) Har).
  now destruct (re_search _ _).
Qed.

(** The language header of a successful response is the resolved language. *)
Lemma text_to_speech_language_header (req : TTSRequest.t) body media_type headers :
  text_to_speech req = StreamingResponse body media_type headers ->
  In (py "X-Language", tts_language req) headers.
Proof.
  unfold text_to_speech, bind.
  destruct (edge_tts_stream _ _) as [chunks|e]; [|discriminate].
  destruct (_ =? 0); [discriminate|].
  destruct (forallb _ _); [|discriminate].
  intros [= <- <- <-]. right. left. reflexivity.
Qed.

(** C4: the text U+0750 is Arabic script, yet with language "en" requested
    the resolved synthesis language stays en: the handler's second check
    only looks at U+0600-U+06FF. *)
Theorem tts_language_misses_arabic_supplement :
  (exists c, In c (TTSRequest.text tts_supplement_request) /\ ArabicScript c)
  /\ tts_language tts_supplement_request = py "en"
  /\ tts_voice tts_supplement_request (tts_language tts_supplement_request)
     = py "en-US-AriaNeural".
Proof.
  split; [|split; reflexivity].
  exists 0x0750. split; [now left|]. unfold ArabicScript. lia.
Qed.

(** *** Patient block *)

Lemma dict_lookup_cons_ne (k k' : pystr) (v : value) (d : dict) :
  k <> k' -> dict_lookup ((k, v) :: d) k' = dict_lookup d k'.
Proof. intros Hne. simpl. now destruct (decide (k = k')). Qed.

(** The Arabic block never reads the vital signs: a record with them renders
    as the same record without them. *)
Lemma patient_block_ar_ignores_vitals (vitals : value) (patient_data : dict) :
  patient_block_ar ((py "vital_signs", vitals) :: patient_data)
  = patient_block_ar patient_data.
Proof.
  unfold patient_block_ar, add_personal_info, add_list, add_visits,
    dict_get, dict_get_default, dict_subscript.
  rewrite !dict_lookup_cons_ne by (vm_compute; discriminate).
  reflexivity.
Qed.

(** The visit windows: the last five visits in English, the last three in
    Arabic. *)
Example visits_en_last_five :
  exists block,
    format_patient_history patient_with_visits (py "en") = Ok block
    /\ contains (py "• v1") block = false
    /\ contains (py "   • v2" ++ NL ++ py "   • v3" ++ NL ++ py "   • v4" ++ NL
                   ++ py "   • v5" ++ NL ++ py "   • v6" ++ NL) block = true.
Proof.
  eexists. split; [vm_compute; reflexivity|]. split; vm_compute; reflexivity.
Qed.

Example visits_ar_last_three :
  exists block,
    format_patient_history patient_with_visits (py "ar") = Ok block
    /\ contains (py "• v3") block = false
    /\ contains (py "• v4" ++ NL ++ py "• v5" ++ NL ++ py "• v6" ++ NL) block = true.
Proof.
  eexists. split; [vm_compute; reflexivity|]. split; vm_compute; reflexivity.
Qed.

(** C5: for a record with a recorded blood pressure, the Arabic block shows
    the personal info but no vital sign at all, while the English block of
    the same record lists it. *)
Theorem arabic_patient_block_omits_vitals :
  (exists block,
      format_patient_history patient_with_vitals (py "ar") = Ok block
      /\ contains (py "👤 الاسم: Sara") block = true
      /\ contains (py "bp") block = false
      /\ contains (py "120/80") block = false)
  /\ (exists block,
         format_patient_history patient_with_vitals (py "en") = Ok block
         /\ contains (py "   • bp: 120/80") block = true).
Proof.
  split; eexists; (split; [vm_compute; reflexivity|]);
    repeat split; vm_compute; reflexivity.
Qed.

(** *** Speech to text *)

(** The recognition loop stops by itself: any larger fuel gives the same
    recognizer. *)
Lemma feed_fuel (fuel1 fuel2 : nat) (rec : recognizer) (wf : list Z) :
  (length wf < fuel1)%nat -> (length wf < fuel2)%nat ->
  feed fuel1 rec wf = feed fuel2 rec wf.
Proof.
  revert fuel2 rec wf.
  induction fuel1 as [|fuel1 IH]; intros fuel2 rec wf H1 H2; [lia|].
  destruct fuel2 as [|fuel2]; [lia|].
  cbn [feed]. rewrite length_firstn.
  destruct wf as [|x wf]; [reflexivity|].
  cbn [length] in *.
  destruct (Z.of_nat _ =? 0) eqn:E; [reflexivity|].
  apply IH; rewrite length_skipn; cbn [length]; lia.
Qed.

Lemma stt_try_recognition (env : stt_env) (language : pystr) (fs : gset pystr)
    (wf : wav_file) :
  reaches_recognition env wf ->
  exists st,
    stt_try env language {| files := fs; tmp_input_path := None; tmp_wav_path := None |}
    = (st, recognize wf language).
Proof.
  intros (_ & [content Hr] & Hw & [wrote Hf] & Ho & Hc & Hs).
  unfold stt_try, bindM, create_file, lift, set_tmp_input_path, set_tmp_wav_path,
    run_ffmpeg.
  rewrite Hr, Hw, Hf, Ho, Hc, Hs. cbn. eexists. reflexivity.
Qed.

Lemma recognize_response (wf : wav_file) (language : pystr) rec final_result t :
  KaldiRecognizer (stt_model (stt_detected_language language)) (getframerate wf) = Ok rec ->
  json_loads (FinalResult (feed (S (length (frames wf))) rec (frames wf))) = Ok final_result ->
  py_get_default final_result (py "text") (VStr []) = Ok (VStr t) ->
  recognize wf language
  = Ok (JSONResponse
          (VDict [(py "transcript", VStr (strip t));
                  (py "detected_language", VStr (stt_detected_language language));
                  (py "status",
                   VStr (if decide (strip t = []) then py "no_speech" else py "success"))])
          200).
Proof.
  intros Hk Hj Ht. unfold recognize, bind. rewrite Hk, Hj, Ht.
  cbn [py_strip]. unfold str_truthy, truthy.
  destruct (strip t); reflexivity.
Qed.

(** The response of a request that got as far as a final result with text [t]. *)
Lemma speech_to_text_recognized (env : stt_env) (language : pystr) (fs : gset pystr)
    (wf : wav_file) (rec : recognizer) (final_result : value) (t : pystr) :
  reaches_recognition env wf ->
  KaldiRecognizer (stt_model (stt_detected_language language)) (getframerate wf) = Ok rec ->
  json_loads (FinalResult (feed (S (length (frames wf))) rec (frames wf))) = Ok final_result ->
  py_get_default final_result (py "text") (VStr []) = Ok (VStr t) ->
  snd (speech_to_text env language fs)
  = JSONResponse
      (VDict [(py "transcript", VStr (strip t));
              (py "detected_language", VStr (stt_detected_language language));
              (py "status",
               VStr (if decide (strip t = []) then py "no_speech" else py "success"))])
      200.
Proof.
  intros Hreach Hk Hj Ht.
  destruct (stt_try_recognition env language fs wf Hreach) as [st Hst].
  unfold speech_to_text. destruct Hreach as (-> & _). cbn [negb].
  rewrite Hst, (recognize_response wf language rec final_result t Hk Hj Ht).
  reflexivity.
Qed.

(** C6: when recognition is reached and the final result carries the text
    [t], the response is a 200 whose transcript is [t] stripped and whose
    status is no_speech if that is empty and success otherwise. *)
Theorem stt_status_by_transcript (env : stt_env) (language : pystr) (fs : gset pystr)
    (wf : wav_file) (rec : recognizer) (final_result : value) (t : pystr) :
  reaches_recognition env wf ->
  KaldiRecognizer (stt_model (stt_detected_language language)) (getframerate wf) = Ok rec ->
  json_loads (FinalResult (feed (S (length (frames wf))) rec (frames wf))) = Ok final_result ->
  py_get_default final_result (py "text") (VStr []) = Ok (VStr t) ->
  snd (speech_to_text env language fs)
  = JSONResponse
      (VDict [(py "transcript", VStr (strip t));
              (py "detected_language", VStr (stt_detected_language language));
              (py "status",
               VStr (if decide (strip t = []) then py "no_speech" else py "success"))])
      200
  /\ (strip t = [] ->
      snd (speech_to_text env language fs)
      = JSONResponse
          (VDict [(py "transcript", VStr []);
                  (py "detected_language", VStr (stt_detected_language language));
                  (py "status", VStr (py "no_speech"))])
          200)
  /\ (strip t <> [] ->
      exists content,
        snd (speech_to_text env language fs) = JSONResponse (VDict content) 200
        /\ dict_lookup content (py "status") = Some (VStr (py "success"))).
Proof.
  intros Hreach Hk Hj Ht.
  rewrite (speech_to_text_recognized env language fs wf rec final_result t Hreach Hk Hj Ht).
  split; [reflexivity|]. split.
  - intros ->. reflexivity.
  - intros Hne. eexists. split; [reflexivity|].
    destruct (decide (strip t = [])); [contradiction|reflexivity].
Qed.

(** When the upload was read and written, both path variables are set by the
    time the [finally] block runs. *)
Lemma stt_try_paths (env : stt_env) (language : pystr) (fs : gset pystr) content :
  upload_read env = Ok content -> tmp_input_write env = Ok tt ->
  let st := fst (stt_try env language
                   {| files := fs; tmp_input_path := None; tmp_wav_path := None |}) in
  tmp_input_path st = Some (tmp_input_name env)
  /\ tmp_wav_path st = Some (tmp_wav_name env).
Proof.
  intros Hr Hw.
  unfold stt_try, bindM, create_file, lift, set_tmp_input_path, set_tmp_wav_path,
    run_ffmpeg, ret.
  rewrite Hr, Hw. cbv beta iota zeta.
  destruct (ffmpeg env) as [returncode wrote|wrote|e]; cbv beta iota zeta;
    [|split; reflexivity|split; reflexivity].
  destruct (returncode =? 0); cbv beta iota zeta; cbn [negb];
    [|split; reflexivity].
  destruct (wave_open env) as [wf|e]; cbv beta iota zeta; [|split; reflexivity].
  destruct (negb (getnchannels wf =? 1) || negb (getsampwidth wf =? 2));
    split; reflexivity.
Qed.

Lemma cleanup_path_removes (env : stt_env) (fs : gset pystr) (p : pystr) :
  p <> [] -> remove_ok env p = true -> p ∉ cleanup_path env fs (Some p).
Proof.
  intros Hne Hrm. unfold cleanup_path, str_truthy, truthy.
  destruct p; [congruence|]. cbn [andb].
  case_bool_decide; [|assumption].
  rewrite Hrm, elem_of_difference, elem_of_singleton.
  intros [_ Hp]. now apply Hp.
Qed.

Lemma cleanup_path_subset (env : stt_env) (fs : gset pystr) (path : option pystr) :
  cleanup_path env fs path ⊆ fs.
Proof.
  unfold cleanup_path. destruct path as [p|]; [|reflexivity].
  destruct (_ && _); [|reflexivity].
  destruct (remove_ok env p); [|reflexivity].
  intros x Hx. now apply elem_of_difference in Hx as [Hx _].
Qed.

(** X26: the cleanup works on every exit path that comes after the upload
    was stored, as long as the removals themselves succeed. *)
Lemma stt_cleanup_after_upload (env : stt_env) (language : pystr) (fs : gset pystr)
    content :
  STT_AVAILABLE = true ->
  upload_read env = Ok content -> tmp_input_write env = Ok tt ->
  tmp_input_name env <> [] -> tmp_wav_name env <> [] ->
  remove_ok env (tmp_input_name env) = true ->
  remove_ok env (tmp_wav_name env) = true ->
  (tmp_input_name env ∉ fst (speech_to_text env language fs))
  /\ (tmp_wav_name env ∉ fst (speech_to_text env language fs)).
Proof.
  intros Hav Hr Hw Hn1 Hn2 Hrm1 Hrm2.
  pose proof (stt_try_paths env language fs content Hr Hw) as [Hp1 Hp2].
  unfold speech_to_text. rewrite Hav. cbn [negb].
  destruct (stt_try env language _) as [st outcome]. cbn [fst] in *.
  rewrite Hp1, Hp2. cbn [fold_left].
  split.
  - intros Hin. apply cleanup_path_subset in Hin.
    now apply cleanup_path_removes in Hin.
  - now apply cleanup_path_removes.
Qed.

(** C7: when reading the upload (or writing it to the temp file) raises, the
    handler answers 500 and the raw temp file it created is still there:
    [tmp_input_path] was never assigned, so the cleanup skips it. *)
Theorem stt_leaks_raw_upload (env : stt_env) (language : pystr) (fs : gset pystr)
    (e : exn) :
  STT_AVAILABLE = true ->
  upload_read env = Raise e
  \/ (exists content, upload_read env = Ok content) /\ tmp_input_write env = Raise e ->
  (tmp_input_name env ∈ fst (speech_to_text env language fs))
  /\ exists content, snd (speech_to_text env language fs) = JSONResponse content 500.
Proof.
  intros Hav Hfail. unfold speech_to_text. rewrite Hav. cbn [negb].
  assert (stt_try env language
            {| files := fs; tmp_input_path := None; tmp_wav_path := None |}
          = ({| files := {[tmp_input_name env]} ∪ fs;
                tmp_input_path := None; tmp_wav_path := None |}, Raise e)) as ->.
  { unfold stt_try, bindM, create_file, lift.
    destruct Hfail as [->|[[content ->] ->]]; reflexivity. }
  cbv beta iota zeta.
  cbn [fst snd fold_left cleanup_path files tmp_input_path tmp_wav_path].
  split; [apply elem_of_union_l, elem_of_singleton; reflexivity|].
  destruct e; eexists; reflexivity.
Qed.

(** C8: with a language other than auto, en and ar the English model is
    used, but the response reports the caller's value as the detected
    language, which is then neither en nor ar. *)
Theorem stt_reports_unknown_language (env : stt_env) (language : pystr)
    (fs : gset pystr) (wf : wav_file) (rec : recognizer) (final_result : value)
    (t : pystr) :
  language <> py "auto" -> language <> py "en" -> language <> py "ar" ->
  reaches_recognition env wf ->
  KaldiRecognizer vosk_model_en (getframerate wf) = Ok rec ->
  json_loads (FinalResult (feed (S (length (frames wf))) rec (frames wf))) = Ok final_result ->
  py_get_default final_result (py "text") (VStr []) = Ok (VStr t) ->
  stt_model (stt_detected_language language) = vosk_model_en
  /\ exists transcript status,
      snd (speech_to_text env language fs)
      = JSONResponse
          (VDict [(py "transcript", transcript);
                  (py "detected_language", VStr language);
                  (py "status", status)])
          200
      /\ language <> py "en" /\ language <> py "ar".
Proof.
  intros Hauto Hen Har Hreach Hk Hj Ht.
  assert (Hd : stt_detected_language language = language).
  { unfold stt_detected_language. now destruct (decide (language <> py "auto")). }
  assert (Hm : stt_model (stt_detected_language language) = vosk_model_en).
  { rewrite Hd. unfold stt_model. now destruct (decide (language = py "ar")). }
  split; [exact Hm|].
  do 2 eexists. split; [|split; assumption].
  rewrite (speech_to_text_recognized env language fs wf rec final_result t);
    [rewrite Hd; reflexivity|assumption|now rewrite Hm|assumption|assumption].
Qed.

(** *** Chat-history store *)

Lemma turn_of_message_value (msg : ChatMessage.t) :
  turn_of_value (message_value msg) = Some msg.
Proof. destruct msg. reflexivity. Qed.

Lemma turns_of_message_values (history : list ChatMessage.t) :
  mapM turn_of_value (map message_value history) = Some history.
Proof.
  induction history as [|msg history IH]; [reflexivity|].
  cbn [map mapM]. rewrite turn_of_message_value. cbn. rewrite IH. reflexivity.
Qed.

Lemma chat_document_fields (request : SaveChatRequest.t) :
  chat_document request
  = [(py "patient_name", VStr (SaveChatRequest.patient_name request));
     (py "chat_history", VList (map message_value (SaveChatRequest.chat_history request)));
     (py "message_count",
      VInt (Z.of_nat (length (SaveChatRequest.chat_history request))));
     (py "last_updated", VStr now_isoformat)].
Proof. reflexivity. Qed.

Lemma messages_renderable (history : list ChatMessage.t) :
  forallb renderable (map message_value history)
  = forallb utf8_encodable (map message_value history).
Proof.
  induction history as [|msg history IH]; [reflexivity|].
  cbn [map forallb]. rewrite IH. reflexivity.
Qed.

(** A transcript document has no float, so it can be rendered as soon as it
    could be written to the file. *)
Lemma chat_document_renderable (request : SaveChatRequest.t) :
  utf8_encodable (VDict (chat_document request)) = true ->
  renderable (VDict (chat_document request)) = true.
Proof.
  rewrite chat_document_fields. cbn [utf8_encodable renderable forallb].
  now rewrite messages_renderable.
Qed.

(** What a save that answered 200 did. *)
Lemma save_success (fs fs' : gmap pystr json_text) (request : SaveChatRequest.t)
    (content : value) :
  save_chat_history fs request = (fs', JSONResponse content 200) ->
  exists f,
    json_dumps (VDict (chat_document request)) = Ok f
    /\ utf8_encodable (VDict (chat_document request)) = true
    /\ fs' = <[chat_file (SaveChatRequest.patient_name request) := f]> fs.
Proof.
  unfold save_chat_history, dump_to_file.
  destruct (open_w_error _) as [e|]; [intros [= _ _ H]; discriminate H|].
  destruct (utf8_encodable _) eqn:Henc; [|intros [= _ _ H]; discriminate H].
  destruct (json_dumps _) as [f|e] eqn:Hd; [|intros [= _ _ H]; discriminate H].
  intros [= <- _]. exists f. repeat split; reflexivity.
Qed.

(** C9: if [json] reads back what it writes, then after a successful save
    the load for the same name answers 200 with a document whose turns are
    the saved ones (same roles, texts and order), whose count is their
    number, and whose timestamp is the clock's ISO string at the save. *)
Theorem save_then_load (fs fs' : gmap pystr json_text) (request : SaveChatRequest.t)
    (content : value) :
  (forall v f, json_dumps v = Ok f -> json_loads f = Ok v) ->
  save_chat_history fs request = (fs', JSONResponse content 200) ->
  exists doc,
    get_chat_history fs' (SaveChatRequest.patient_name request)
    = JSONResponse (VDict doc) 200
    /\ turns_of_document (VDict doc) = Some (SaveChatRequest.chat_history request)
    /\ dict_lookup doc (py "patient_name")
       = Some (VStr (SaveChatRequest.patient_name request))
    /\ dict_lookup doc (py "message_count")
       = Some (VInt (Z.of_nat (length (SaveChatRequest.chat_history request))))
    /\ dict_lookup doc (py "last_updated") = Some (VStr now_isoformat).
Proof.
  intros Hjson Hsave.
  destruct (save_success _ _ _ _ Hsave) as (f & Hd & Henc & ->).
  exists (chat_document request). split.
  - unfold get_chat_history. rewrite lookup_insert_eq, (Hjson _ _ Hd). cbn [bind].
    assert (py_get_default (VDict (chat_document request)) (py "chat_history") (VList [])
            = Ok (VList (map message_value (SaveChatRequest.chat_history request))))
      as -> by (rewrite chat_document_fields; reflexivity).
    cbn [bind py_len]. unfold json_response.
    rewrite (chat_document_renderable _ Henc). reflexivity.
  - rewrite chat_document_fields. split; [|repeat split; reflexivity].
    unfold turns_of_document.
    change (dict_lookup _ (py "chat_history"))
      with (Some (VList (map message_value (SaveChatRequest.chat_history request)))).
    apply turns_of_message_values.
Qed.


(** ** Further properties of the handlers *)

(** *** Chat *)


(** X2: [chat] answers either a 500 carrying the error text or a 200 with
    the five documented fields, in which both language tags are en or ar. *)
Theorem chat_response_shape (request : ChatRequest.t) :
  (exists e, snd (chat request) = error_response e)
  \/ exists reply detected response_lang has_patient has_report,
      snd (chat request)
      = JSONResponse
          (VDict [(py "reply", VStr reply);
                  (py "detected_language", VStr detected);
                  (py "response_language", VStr response_lang);
                  (py "has_patient_data", VBool has_patient);
                  (py "has_biomarker_report", VBool has_report)])
          200
      /\ (detected = py "en" \/ detected = py "ar")
      /\ (response_lang = py "en" \/ response_lang = py "ar").
Proof.
  unfold chat.
  destruct (chat_system_prompt request _) as [[system_prompt report]|e];
    cbn [snd]; [|left; exists e; reflexivity].
  destruct (generate_content _) as [text|e]; [|left; exists e; reflexivity].
  right. do 5 eexists. split; [reflexivity|]. split.
  - apply resolve_language_tag.
  - apply detect_language_tag.
Qed.

(** X3: when no report was precomputed and the biomarker oracle raises on the
    raw data, [chat] behaves exactly as for the same request sent without
    any biomarker input: same oracle call, same response. *)
Theorem chat_survives_biomarker_failure (request : ChatRequest.t)
    (biomarker_data : dict) (e : exn) :
  truthy (of_optional (ChatRequest.biomarker_analysis request)) = false ->
  ChatRequest.biomarker_data request = Some biomarker_data ->
  biomarker_data <> [] ->
  biomarker_predict biomarker_data = Raise e ->
  chat request = chat (without_biomarker request).
Proof.
  intros Ha Hd Hne He.
  assert (Hr : resolve_biomarker_report request = VNone).
  { unfold resolve_biomarker_report, call_biomarker_api.
    rewrite Ha, Hd. destruct biomarker_data as [|kv d]; [congruence|].
    simpl. now rewrite He. }
  unfold chat, chat_system_prompt. rewrite Hr.
  change (resolve_biomarker_report (without_biomarker request)) with VNone.
  reflexivity.
Qed.


(** *** Patient and biomarker blocks *)

Lemma dict_subscript_truthy (d : dict) (k : pystr) :
  truthy (dict_get d k) = true -> dict_subscript d k = Ok (dict_get d k).
Proof.
  unfold dict_get, dict_get_default, dict_subscript.
  destruct (dict_lookup d k); [reflexivity|discriminate].
Qed.

Lemma add_personal_info_ok l_name l_age l_gender patient_data context :
  is_dict_or_falsy (dict_get patient_data (py "personal_info")) = true ->
  exists context', add_personal_info l_name l_age l_gender patient_data context
                   = Ok context'.
Proof.
  intros Hok. unfold add_personal_info.
  destruct (truthy (dict_get patient_data (py "personal_info"))) eqn:Ht;
    [|eexists; reflexivity].
  rewrite (dict_subscript_truthy _ _ Ht). cbn [bind].
  destruct (dict_get patient_data (py "personal_info")); cbn in Hok, Ht;
    try congruence; try (rewrite Ht in Hok; discriminate).
  eexists. reflexivity.
Qed.

Lemma add_list_ok field heading bullet patient_data context :
  is_list_or_falsy (dict_get patient_data field) = true ->
  exists context', add_list field heading bullet patient_data context = Ok context'.
Proof.
  intros Hok. unfold add_list.
  destruct (truthy (dict_get patient_data field)) eqn:Ht; [|eexists; reflexivity].
  rewrite (dict_subscript_truthy _ _ Ht). cbn [bind].
  destruct (dict_get patient_data field); cbn in Hok, Ht;
    try congruence; try (rewrite Ht in Hok; discriminate).
  eexists. reflexivity.
Qed.

Lemma add_visits_ok n heading bullet patient_data context :
  is_list_or_falsy (dict_get patient_data (py "previous_visits")) = true ->
  exists context', add_visits n heading bullet patient_data context = Ok context'.
Proof.
  intros Hok. unfold add_visits.
  destruct (truthy (dict_get patient_data (py "previous_visits"))) eqn:Ht;
    [|eexists; reflexivity].
  rewrite (dict_subscript_truthy _ _ Ht). cbn [bind].
  destruct (dict_get patient_data (py "previous_visits")); cbn in Hok, Ht;
    try congruence; try (rewrite Ht in Hok; discriminate).
  eexists. reflexivity.
Qed.

Lemma add_vitals_ok heading patient_data context :
  is_dict_or_falsy (dict_get patient_data (py "vital_signs")) = true ->
  exists context', add_vitals heading patient_data context = Ok context'.
Proof.
  intros Hok. unfold add_vitals.
  destruct (truthy (dict_get patient_data (py "vital_signs"))) eqn:Ht;
    [|eexists; reflexivity].
  rewrite (dict_subscript_truthy _ _ Ht). cbn [bind].
  destruct (dict_get patient_data (py "vital_signs")); cbn in Hok, Ht;
    try congruence; try (rewrite Ht in Hok; discriminate).
  eexists. reflexivity.
Qed.

(** X5: a record in the shape of the data model, however partial, is always
    formatted: [format_patient_history] raises for neither language. *)
Theorem format_patient_history_accepts_partial (patient_data : dict) (language : pystr) :
  record_ok patient_data = true ->
  exists block, format_patient_history patient_data language = Ok block.
Proof.
  unfold record_ok. rewrite !andb_true_iff.
  intros [[[[[Hinfo Hhist] Hmeds] Hall] Hvis] Hvit].
  unfold format_patient_history.
  destruct (negb (truthy (VDict patient_data))); [eexists; reflexivity|].
  destruct (decide (language = py "ar")).
  - unfold patient_block_ar.
    destruct (add_personal_info_ok (py "👤 الاسم: ") (py "📅 العمر: ") (py "⚧ الجنس: ")
                patient_data
                ((NL ++ NL ++ rule50 ++ NL)
                 ++ py "⚠️ معلومات المريض المهمة - يجب مراعاتها في كل رد:" ++ NL
                 ++ rule50 ++ NL) Hinfo) as [c1 H1].
    rewrite <- !app_assoc in H1. rewrite <- !app_assoc. rewrite H1. cbn [bind].
    destruct (add_list_ok (py "medical_history") (NL ++ py "📋 التاريخ الطبي:" ++ NL)
                (py "• ") patient_data c1 Hhist) as [c2 ->]. cbn [bind].
    destruct (add_list_ok (py "medications") (NL ++ py "💊 الأدوية الحالية:" ++ NL)
                (py "• ") patient_data c2 Hmeds) as [c3 ->]. cbn [bind].
    destruct (add_list_ok (py "allergies") (NL ++ py "⚠️ الحساسيات:" ++ NL)
                (py "• ") patient_data c3 Hall) as [c4 ->]. cbn [bind].
    destruct (add_visits_ok 3 (NL ++ py "📅 الزيارات السابقة:" ++ NL)
                (py "• ") patient_data c4 Hvis) as [c5 ->]. cbn [bind].
    eexists. reflexivity.
  - unfold patient_block_en.
    destruct (add_personal_info_ok (py "👤 Name: ") (py "📅 Age: ") (py "⚧ Gender: ")
                patient_data
                ((NL ++ NL ++ rule50 ++ NL)
                 ++ py "⚠️ IMPORTANT PATIENT INFORMATION - Consider in EVERY response:"
                 ++ NL ++ rule50 ++ NL) Hinfo) as [c1 H1].
    rewrite <- !app_assoc in H1. rewrite <- !app_assoc. rewrite H1. cbn [bind].
    destruct (add_list_ok (py "medical_history")
                (NL ++ py "🏥 KNOWN MEDICAL CONDITIONS (CRITICAL):" ++ NL)
                (py "   • ") patient_data c1 Hhist) as [c2 ->]. cbn [bind].
    destruct (add_list_ok (py "medications")
                (NL ++ py "💊 CURRENT MEDICATIONS (Check for interactions):" ++ NL)
                (py "   • ") patient_data c2 Hmeds) as [c3 ->]. cbn [bind].
    destruct (add_list_ok (py "allergies")
                (NL ++ py "🚨 ALLERGIES (NEVER recommend these):" ++ NL)
                (py "   • ") patient_data c3 Hall) as [c4 ->]. cbn [bind].
    destruct (add_visits_ok 5 (NL ++ py "📋 RECENT VISIT HISTORY:" ++ NL)
                (py "   • ") patient_data c4 Hvis) as [c5 ->]. cbn [bind].
    destruct (add_vitals_ok (NL ++ py "📊 LAST RECORDED VITALS:" ++ NL)
                patient_data c5 Hvit) as [c6 ->]. cbn [bind].
    eexists. reflexivity.
Qed.

Lemma add_personal_info_raises l_name l_age l_gender patient_data context :
  truthy (dict_get patient_data (py "personal_info")) = true ->
  is_dict_or_falsy (dict_get patient_data (py "personal_info")) = false ->
  add_personal_info l_name l_age l_gender patient_data context = Raise AttributeError.
Proof.
  intros Ht Hbad. unfold add_personal_info. rewrite Ht.
  rewrite (dict_subscript_truthy _ _ Ht). cbn [bind].
  destruct (dict_get patient_data (py "personal_info")); cbn in Hbad;
    try discriminate; reflexivity.
Qed.

Lemma format_patient_history_raises (patient_data : dict) (language : pystr) :
  truthy (dict_get patient_data (py "personal_info")) = true ->
  is_dict_or_falsy (dict_get patient_data (py "personal_info")) = false ->
  format_patient_history patient_data language = Raise AttributeError.
Proof.
  intros Ht Hbad. unfold format_patient_history.
  destruct patient_data as [|kv d]; [discriminate Ht|]. cbn [truthy negb].
  destruct (decide (language = py "ar")).
  - unfold patient_block_ar.
    rewrite (add_personal_info_raises _ _ _ _ _ Ht Hbad). reflexivity.
  - unfold patient_block_en.
    rewrite (add_personal_info_raises _ _ _ _ _ Ht Hbad). reflexivity.
Qed.

(** X6: when the record's personal_info is present but not a dictionary (a
    name string, a list), formatting raises, [chat] answers 500 with that
    error and the model oracle is never called. *)
Theorem chat_rejects_malformed_personal_info (request : ChatRequest.t)
    (patient_data : dict) :
  ChatRequest.patient_data request = Some patient_data ->
  truthy (dict_get patient_data (py "personal_info")) = true ->
  is_dict_or_falsy (dict_get patient_data (py "personal_info")) = false ->
  chat request = ([], error_response AttributeError).
Proof.
  intros Hp Ht Hbad. unfold chat, chat_system_prompt. rewrite Hp.
  destruct patient_data as [|kv d]; [discriminate Ht|].
  cbn [of_optional truthy default from_option id].
  rewrite (format_patient_history_raises _ _ Ht Hbad). reflexivity.
Qed.

(** X7: [format_patient_history] reads only its six fields: putting any
    other key in front of a non-empty record changes nothing, in either
    language. *)
Theorem format_patient_history_ignores_other_keys (patient_data : dict)
    (k : pystr) (v : value) (language : pystr) :
  ~ In k patient_fields -> patient_data <> [] ->
  format_patient_history ((k, v) :: patient_data) language
  = format_patient_history patient_data language.
Proof.
  intros Hk Hne.
  assert (Hfield : forall f, In f patient_fields ->
                     dict_lookup ((k, v) :: patient_data) f = dict_lookup patient_data f).
  { intros f Hf. apply dict_lookup_cons_ne. intros ->. contradiction. }
  assert (H1 := Hfield (py "personal_info") ltac:(left; reflexivity)).
  assert (H2 := Hfield (py "medical_history") ltac:(right; left; reflexivity)).
  assert (H3 := Hfield (py "medications") ltac:(do 2 right; left; reflexivity)).
  assert (H4 := Hfield (py "allergies") ltac:(do 3 right; left; reflexivity)).
  assert (H5 := Hfield (py "previous_visits") ltac:(do 4 right; left; reflexivity)).
  assert (H6 := Hfield (py "vital_signs") ltac:(do 5 right; left; reflexivity)).
  unfold format_patient_history.
  destruct patient_data as [|kv d]; [congruence|]. cbn [truthy negb].
  unfold patient_block_ar, patient_block_en, add_personal_info, add_list, add_visits,
    add_vitals, dict_get, dict_get_default, dict_subscript.
  rewrite H1, H2, H3, H4, H5, H6. reflexivity.
Qed.

Lemma add_numbered_lines (i : Z) (xs : list value) (context : pystr) :
  add_numbered i xs context = context ++ numbered_lines i xs.
Proof.
  revert i context. induction xs as [|x xs IH]; intros i context;
    cbn [add_numbered numbered_lines].
  - now rewrite app_nil_r.
  - rewrite IH, <- !app_assoc. reflexivity.
Qed.

(** X8: for a report whose executive summary lists priorities, the
    biomarker block is the title line, the heading line and one line
    ["i. priority"] per priority, numbered from 1 in the report's order. *)
Theorem format_biomarker_context_numbered (report summary : dict)
    (priorities : list value) (language : pystr) :
  dict_lookup report (py "executive_summary") = Some (VDict summary) ->
  dict_lookup summary (py "top_priorities") = Some (VList priorities) ->
  priorities <> [] ->
  format_biomarker_context (VDict report) language
  = Ok (NL ++ NL
        ++ (if decide (language = py "ar") then py "📊 معلومات تقرير المختبر:"
            else py "📊 LAB REPORT INFORMATION:") ++ NL
        ++ (if decide (language = py "ar") then py "🎯 الأولويات الصحية الرئيسية:"
            else py "🎯 Top Health Priorities:") ++ NL
        ++ numbered_lines 1 priorities).
Proof.
  intros Hs Hp Hne.
  destruct report as [|kv report']; [discriminate Hs|].
  destruct summary as [|kv' summary']; [discriminate Hp|].
  destruct priorities as [|x xs]; [congruence|].
  unfold format_biomarker_context. cbn [truthy negb].
  assert (Hblock : forall title heading,
             biomarker_block title heading (VDict (kv :: report'))
             = Ok (NL ++ NL ++ title ++ NL ++ heading ++ NL
                   ++ numbered_lines 1 (x :: xs))).
  { intros title heading.
    unfold biomarker_block, py_get, py_get_default, py_subscript, dict_get_default,
      dict_subscript.
    rewrite Hs. cbn [bind truthy]. rewrite Hp. cbn [bind truthy py_iter].
    rewrite add_numbered_lines, <- !app_assoc. reflexivity. }
  destruct (decide (language = py "ar")); apply Hblock.
Qed.

(** X9: a report with no executive summary (missing, null or empty) still
    gets its title line, and nothing else. *)
Theorem format_biomarker_context_title_only (report : dict) (language : pystr) :
  report <> [] ->
  truthy (dict_get report (py "executive_summary")) = false ->
  format_biomarker_context (VDict report) language
  = Ok (NL ++ NL
        ++ (if decide (language = py "ar") then py "📊 معلومات تقرير المختبر:"
            else py "📊 LAB REPORT INFORMATION:") ++ NL).
Proof.
  intros Hne Hs. destruct report as [|kv report']; [congruence|].
  unfold format_biomarker_context. cbn [truthy negb].
  unfold biomarker_block, py_get, py_get_default.
  fold (dict_get (kv :: report') (py "executive_summary")).
  cbn [bind]. rewrite Hs.
  destruct (decide (language = py "ar")); reflexivity.
Qed.

(** *** Language detection on text without Arabic script *)

(** X10: on a text with no character of the three Arabic blocks the answer
    follows the statistical detector: ar when it says ar, en for every
    other language it names. *)
Theorem detect_language_statistical (text lang : pystr) :
  ~ (exists c, In c text /\ ArabicScript c) ->
  detect text = Ok lang ->
  detect_language text = if decide (lang = py "ar") then py "ar" else py "en".
Proof.
  intros Hno Hd. unfold detect_language, detect_language_body.
  destruct (re_search arabic_pattern text) eqn:Hs.
  - exfalso. apply Hno. apply re_search_spec in Hs as (c & Hc & Hp).
    exists c. split; [assumption|]. now apply arabic_pattern_spec.
  - rewrite Hd. reflexivity.
Qed.

(** *** Text to speech *)

Lemma tts_language_tag (req : TTSRequest.t) :
  tts_language req = py "en" \/ tts_language req = py "ar".
Proof.
  unfold tts_language. destruct (re_search _ _); [now right|].
  apply resolve_language_tag.
Qed.

(** X11: a non-empty voice named by the caller is used as it is; without
    one the voice is the Arabic default exactly when the resolved language
    is ar, and the English default otherwise. *)
Theorem tts_voice_resolution (req : TTSRequest.t) :
  (forall v detected_lang,
      TTSRequest.voice req = Some v -> v <> [] -> tts_voice req detected_lang = v)
  /\ (TTSRequest.voice req = None \/ TTSRequest.voice req = Some [] ->
      tts_voice req (tts_language req)
      = if decide (tts_language req = py "ar") then py "ar-SA-ZariyahNeural"
        else py "en-US-AriaNeural").
Proof.
  split.
  - intros v detected_lang Hv Hne. unfold tts_voice. rewrite Hv.
    destruct v; [congruence|reflexivity].
  - intros Hnone.
    assert (tts_voice req (tts_language req)
            = voices_get EDGE_TTS_VOICES (tts_language req)
                (voices_get EDGE_TTS_VOICES (py "en") [])) as ->.
    { unfold tts_voice. destruct Hnone as [->| ->]; reflexivity. }
    destruct (tts_language_tag req) as [-> | ->]; reflexivity.
Qed.

Lemma write_audio_fold (chunks : list Chunk.t) (audio_buffer : list Z) :
  fold_left write_audio chunks audio_buffer = audio_buffer ++ audio_of chunks.
Proof.
  revert audio_buffer. induction chunks as [|chunk chunks IH]; intros audio_buffer;
    cbn [fold_left audio_of flat_map].
  - now rewrite app_nil_r.
  - rewrite IH. unfold write_audio.
    destruct (decide (Chunk.type chunk = py "audio")).
    + now rewrite <- app_assoc.
    + reflexivity.
Qed.

(** X12: when the engine ends its stream without any audio byte (no audio
    chunk, or only empty ones), [text_to_speech] answers the structured 500
    error for "No audio data generated" and never an empty 200 stream. *)
Theorem text_to_speech_empty_audio (req : TTSRequest.t) (chunks : list Chunk.t) :
  edge_tts_stream (strip (TTSRequest.text req)) (tts_voice req (tts_language req))
  = Ok chunks ->
  audio_of chunks = [] ->
  text_to_speech req
  = JSONResponse
      (VDict [(py "error", VStr (exn_str (Exception (py "No audio data generated"))));
              (py "type", VStr (py "tts_error"));
              (py "details", VStr (py "Text-to-speech generation failed"))])
      500.
Proof.
  intros Hs Ha. unfold text_to_speech, bind. rewrite Hs.
  rewrite write_audio_fold, Ha. reflexivity.
Qed.

(** X13: when the stream carries audio and the voice name can be sent as a
    latin-1 header, the response body is the data of the audio chunks in
    stream order, other chunk types dropped, served as audio/mpeg with the
    resolved language and voice in its headers; with a voice name that
    cannot, the answer is the structured 500 error instead. *)
Theorem text_to_speech_streams_audio (req : TTSRequest.t) (chunks : list Chunk.t) :
  edge_tts_stream (strip (TTSRequest.text req)) (tts_voice req (tts_language req))
  = Ok chunks ->
  audio_of chunks <> [] ->
  (header_encodable (tts_voice req (tts_language req)) = true ->
   text_to_speech req
   = StreamingResponse (audio_of chunks) (py "audio/mpeg")
       [(py "Content-Disposition", py "inline; filename=speech.mp3");
        (py "X-Language", tts_language req);
        (py "X-Voice", tts_voice req (tts_language req));
        (py "Cache-Control", py "no-cache")])
  /\ (header_encodable (tts_voice req (tts_language req)) = false ->
      text_to_speech req
      = JSONResponse
          (VDict [(py "error", VStr (exn_str (Exception (py "UnicodeEncodeError"))));
                  (py "type", VStr (py "tts_error"));
                  (py "details", VStr (py "Text-to-speech generation failed"))])
          500).
Proof.
  intros Hs Ha. unfold text_to_speech, bind. rewrite Hs.
  rewrite write_audio_fold. cbn [app].
  destruct (audio_of chunks) as [|b audio]; [congruence|].
  assert (Hlang : header_encodable (tts_language req) = true)
    by (destruct (tts_language_tag req) as [-> | ->]; reflexivity).
  assert (Hlen : (Z.of_nat (length (b :: audio)) =? 0) = false)
    by (apply Z.eqb_neq; cbn [length]; lia).
  rewrite Hlen. cbn [forallb fst snd]. rewrite Hlang.
  change (header_encodable (py "Content-Disposition")) with true.
  change (header_encodable (py "inline; filename=speech.mp3")) with true.
  change (header_encodable (py "X-Language")) with true.
  change (header_encodable (py "X-Voice")) with true.
  change (header_encodable (py "Cache-Control")) with true.
  change (header_encodable (py "no-cache")) with true.
  cbn [andb].
  split; intros ->; reflexivity.
Qed.

(** *** Speech to text *)

Lemma cleanup_path_other (env : stt_env) (fs : gset pystr) (p q : pystr) :
  p <> q -> p ∈ cleanup_path env fs (Some q) <-> p ∈ fs.
Proof.
  intros Hne. unfold cleanup_path.
  destruct (_ && _); [|reflexivity].
  destruct (remove_ok env q); [|reflexivity].
  rewrite elem_of_difference, elem_of_singleton.
  split; [now intros [H _] | intros H; split; assumption].
Qed.

Lemma cleanup_temp_only (env : stt_env) (fs : gset pystr) (path : option pystr)
    (name p : pystr) :
  path = None \/ path = Some name -> p <> name ->
  p ∈ cleanup_path env fs path <-> p ∈ fs.
Proof.
  intros [-> | ->] Hne; [reflexivity|]. now apply cleanup_path_other.
Qed.

Lemma stt_try_state (env : stt_env) (language : pystr) (fs : gset pystr) :
  let st := fst (stt_try env language
                   {| files := fs; tmp_input_path := None; tmp_wav_path := None |}) in
  (forall p, p <> tmp_input_name env -> p <> tmp_wav_name env ->
             p ∈ files st <-> p ∈ fs)
  /\ (tmp_input_path st = None \/ tmp_input_path st = Some (tmp_input_name env))
  /\ (tmp_wav_path st = None \/ tmp_wav_path st = Some (tmp_wav_name env)).
Proof.
  assert (Hin : forall p, p <> tmp_input_name env ->
                  p ∈ ({[tmp_input_name env]} ∪ fs : gset pystr) <-> p ∈ fs).
  { intros p Hp. rewrite elem_of_union, elem_of_singleton.
    split; [intros [H|H]; [contradiction|assumption] | intros H; now right]. }
  assert (Hwav : forall p (b : bool), p <> tmp_input_name env -> p <> tmp_wav_name env ->
                  p ∈ (if b then {[tmp_wav_name env]} ∪ ({[tmp_input_name env]} ∪ fs)
                       else {[tmp_input_name env]} ∪ fs : gset pystr) <-> p ∈ fs).
  { intros p b Hp1 Hp2. destruct b; [|now apply Hin].
    rewrite elem_of_union, elem_of_singleton, (Hin p Hp1).
    split; [intros [H|H]; [contradiction|assumption] | intros H; now right]. }
  unfold stt_try, bindM, create_file, lift, set_tmp_input_path, set_tmp_wav_path,
    run_ffmpeg, ret.
  destruct (upload_read env) as [content|e]; cbv beta iota zeta;
    [|cbn [fst files tmp_input_path tmp_wav_path]; auto].
  destruct (tmp_input_write env) as [[]|e]; cbv beta iota zeta;
    [|cbn [fst files tmp_input_path tmp_wav_path]; auto].
  cbn [files tmp_input_path tmp_wav_path].
  destruct (ffmpeg env) as [returncode wrote|wrote|e]; cbv beta iota zeta;
    [|cbn [fst files tmp_input_path tmp_wav_path]; auto..].
  destruct (returncode =? 0); cbv beta iota zeta; cbn [negb];
    [|cbn [fst files tmp_input_path tmp_wav_path]; auto].
  destruct (wave_open env) as [wf|e]; cbv beta iota zeta;
    [|cbn [fst files tmp_input_path tmp_wav_path]; auto].
  destruct (negb (getnchannels wf =? 1) || negb (getsampwidth wf =? 2));
    cbn [fst files tmp_input_path tmp_wav_path]; auto.
Qed.

(** X14: apart from its own two temp files the handler leaves the file
    system as it found it: any other path exists afterwards exactly when
    it existed before, on every exit path. *)
Theorem speech_to_text_touches_only_temp_files (env : stt_env) (language : pystr)
    (fs : gset pystr) (p : pystr) :
  p <> tmp_input_name env -> p <> tmp_wav_name env ->
  p ∈ fst (speech_to_text env language fs) <-> p ∈ fs.
Proof.
  intros Hp1 Hp2. unfold speech_to_text.
  destruct (negb STT_AVAILABLE); [reflexivity|].
  pose proof (stt_try_state env language fs) as (Hfiles & Hi & Hw).
  destruct (stt_try env language _) as [st outcome]. cbn [fst] in *.
  cbn [fold_left].
  rewrite (cleanup_temp_only env _ _ (tmp_wav_name env) p Hw Hp2).
  rewrite (cleanup_temp_only env _ _ (tmp_input_name env) p Hi Hp1).
  now apply Hfiles.
Qed.

Lemma feed_step (fuel : nat) (rec : recognizer) (wf : list Z) :
  feed (S fuel) rec wf
  = if Z.of_nat (length (firstn 4000 wf)) =? 0 then rec
    else feed fuel (AcceptWaveform rec (firstn 4000 wf)) (skipn 4000 wf).
Proof. reflexivity. Qed.

(** X15: the recognition loop feeds the audio in chunks of 4000 frames:
    nothing for an empty file, the whole audio at once when it has at most
    4000 frames, and otherwise the first 4000 frames and then the rest in
    the same way. *)
Theorem feed_in_chunks (rec : recognizer) :
  feed 1 rec [] = rec
  /\ (forall wf, wf <> [] -> (length wf <= 4000)%nat ->
        feed (S (length wf)) rec wf = AcceptWaveform rec wf)
  /\ (forall a b, length a = 4000%nat ->
        feed (S (length (a ++ b))) rec (a ++ b)
        = feed (S (length b)) (AcceptWaveform rec a) b).
Proof.
  split; [reflexivity|]. split.
  - intros wf Hne Hlen. cbn [feed].
    rewrite firstn_all2 by exact Hlen. rewrite skipn_all2 by exact Hlen.
    destruct wf as [|x wf]; [congruence|]. cbn [length].
    destruct (Z.of_nat (S (length wf)) =? 0) eqn:E; [apply Z.eqb_eq in E; lia|].
    cbn [feed]. rewrite firstn_nil. reflexivity.
  - intros a b Ha. rewrite (feed_step (length (a ++ b)) rec (a ++ b)).
    assert (Hf : firstn 4000 (a ++ b) = a).
    { rewrite firstn_app, Ha, Nat.sub_diag, firstn_O, app_nil_r.
      apply firstn_all2. lia. }
    assert (Hs : skipn 4000 (a ++ b) = b).
    { rewrite skipn_app, Ha, Nat.sub_diag, skipn_O.
      rewrite skipn_all2 by lia. reflexivity. }
    rewrite Hf, Hs.
    destruct (Z.of_nat (length a) =? 0) eqn:E; [apply Z.eqb_eq in E; lia|].
    apply feed_fuel; rewrite ?length_app; lia.
Qed.

(** X16: the failure answers of [/stt]: 503 with the file system untouched
    when the models are not loaded; once the upload is stored, 500 "Audio
    conversion failed" for a non-zero ffmpeg exit, 500 "Audio processing
    timeout" for a timeout, and 400 "Invalid WAV format" for a file that is
    not mono 16-bit. *)
Theorem stt_failure_responses (env : stt_env) (language : pystr) (fs : gset pystr) :
  (STT_AVAILABLE = false ->
   speech_to_text env language fs
   = (fs, JSONResponse
            (VDict [(py "error",
                     VStr (py "Speech-to-text not available. Vosk models not found."))])
            503))
  /\ (STT_AVAILABLE = true ->
      (exists content, upload_read env = Ok content) ->
      tmp_input_write env = Ok tt ->
      (forall returncode wrote,
          ffmpeg env = FfmpegExit returncode wrote -> returncode <> 0 ->
          snd (speech_to_text env language fs)
          = JSONResponse (VDict [(py "error", VStr (py "Audio conversion failed"))]) 500)
      /\ (forall wrote,
             ffmpeg env = FfmpegTimeout wrote ->
             snd (speech_to_text env language fs)
             = JSONResponse (VDict [(py "error", VStr (py "Audio processing timeout"))])
                 500)
      /\ (forall wrote wf,
             ffmpeg env = FfmpegExit 0 wrote -> wave_open env = Ok wf ->
             getnchannels wf <> 1 \/ getsampwidth wf <> 2 ->
             snd (speech_to_text env language fs)
             = JSONResponse (VDict [(py "error", VStr (py "Invalid WAV format"))]) 400)).
Proof.
  split.
  - intros Hav. unfold speech_to_text. rewrite Hav. reflexivity.
  - intros Hav [content Hr] Hw. unfold speech_to_text. rewrite Hav. cbn [negb].
    unfold stt_try, bindM, create_file, lift, set_tmp_input_path, set_tmp_wav_path,
      run_ffmpeg, ret.
    rewrite Hr, Hw. cbv beta iota zeta.
    split; [|split].
    + intros returncode wrote Hf Hrc. rewrite Hf. cbv beta iota zeta.
      destruct (returncode =? 0) eqn:E; [apply Z.eqb_eq in E; contradiction|].
      reflexivity.
    + intros wrote Hf. rewrite Hf. reflexivity.
    + intros wrote wf Hf Ho Hbad. rewrite Hf. cbv beta iota zeta.
      rewrite Ho. cbv beta iota zeta. cbn [Z.eqb negb].
      assert (negb (getnchannels wf =? 1) || negb (getsampwidth wf =? 2) = true) as ->.
      { apply orb_true_iff. destruct Hbad as [Hc|Hs]; [left|right];
          apply negb_true_iff, Z.eqb_neq; assumption. }
      reflexivity.
Qed.

(** *** Patient files and the transcript store *)

Lemma is_prefix_app (p s : pystr) : is_prefix p (p ++ s) = true.
Proof.
  induction p as [|a p IH]; [reflexivity|].
  cbn [app is_prefix]. now rewrite Z.eqb_refl, IH.
Qed.

Lemma py_endswith_app (s suffix : pystr) : py_endswith (s ++ suffix) suffix = true.
Proof. unfold py_endswith. rewrite rev_app_distr. apply is_prefix_app. Qed.

Lemma is_prefix_spec (p s : pystr) :
  is_prefix p s = true <-> exists t, s = p ++ t.
Proof.
  revert s. induction p as [|a p IH]; intros s; cbn [is_prefix].
  - split; [intros _; exists s; reflexivity | reflexivity].
  - destruct s as [|b s].
    + split; [discriminate | intros [t Ht]; discriminate Ht].
    + rewrite andb_true_iff, Z.eqb_eq, IH. split.
      * intros [-> [t ->]]. exists t. reflexivity.
      * intros [t Ht]. injection Ht as -> ->. split; [reflexivity|].
        exists t. reflexivity.
Qed.

Lemma py_endswith_spec (s suffix : pystr) :
  py_endswith s suffix = true <-> exists name, s = name ++ suffix.
Proof.
  unfold py_endswith. rewrite is_prefix_spec. split.
  - intros [t Ht]. exists (rev t).
    rewrite <- (rev_involutive s), Ht, rev_app_distr, rev_involutive. reflexivity.
  - intros [name ->]. exists (rev name). apply rev_app_distr.
Qed.

(** X17: a 200 answer of [/patients] holds exactly three fields: patients,
    the folder's JSON stems with those of the form name_chat filtered out
    and nothing else changed (same order, same repetitions); count, the
    length of that list; and the folder name. So no transcript file is ever
    listed as a patient. *)
Theorem list_patients_hides_transcripts (stems : list pystr) (content : dict) :
  list_patients (Ok stems) = JSONResponse (VDict content) 200 ->
  exists (is_transcript : pystr -> bool) (patients : list pystr),
    (forall stem, is_transcript stem = true <-> exists name, stem = name ++ py "_chat")
    /\ patients = List.filter (fun stem => negb (is_transcript stem)) stems
    /\ content = [(py "patients", VList (map VStr patients));
                  (py "count", VInt (Z.of_nat (length patients)));
                  (py "folder", VStr PATIENT_DATA_FOLDER)]
    /\ (forall name, ~ In (name ++ py "_chat") patients).
Proof.
  unfold list_patients, json_response_or_500, json_response.
  destruct (renderable _); [|discriminate].
  intros [= <-].
  exists (fun stem => py_endswith stem (py "_chat")),
         (List.filter (fun stem => negb (py_endswith stem (py "_chat"))) stems).
  split; [intros stem; apply py_endswith_spec|].
  split; [reflexivity|]. split; [reflexivity|].
  intros name Hin. apply filter_In in Hin as [_ Hend].
  rewrite py_endswith_app in Hend. discriminate.
Qed.

Lemma str_encodable_app (a b : pystr) :
  str_encodable (a ++ b) = str_encodable a && str_encodable b.
Proof. unfold str_encodable. apply forallb_app. Qed.

(** X18: [/patient/{name}] answers 404 "Patient name not found" when the
    patient file is absent (and its path can be examined), when it is not
    valid JSON, and when it holds an empty or null document; when the path
    cannot be examined the error of the existence test escapes the handler. *)
Theorem get_patient_data_not_found (fs : gmap pystr json_text) (patient_name : pystr) :
  (str_encodable patient_name = true ->
   (fs !! patient_file patient_name = None
    /\ stat_error (patient_file patient_name) = None)
   \/ (exists f e, fs !! patient_file patient_name = Some f /\ json_loads f = Raise e)
   \/ (exists f data, fs !! patient_file patient_name = Some f
                      /\ json_loads f = Ok data /\ truthy data = false) ->
   get_patient_data fs patient_name
   = Ok (JSONResponse
           (VDict [(py "error",
                    VStr (py "Patient " ++ patient_name ++ py " not found"))])
           404))
  /\ (forall e, fs !! patient_file patient_name = None ->
                stat_error (patient_file patient_name) = Some e ->
                get_patient_data fs patient_name = Raise e).
Proof.
  split.
  - intros Henc Hcase.
    assert (Hload : exists data, load_patient_data fs patient_name = Ok data
                                 /\ truthy data = false).
    { unfold load_patient_data.
      destruct Hcase as [[-> ->] | [(f & e & -> & ->) | (f & data & -> & -> & Ht)]];
        eexists; (split; [reflexivity|]); [reflexivity | reflexivity | exact Ht]. }
    destruct Hload as (data & Hload & Ht).
    unfold get_patient_data. rewrite Hload. cbn [bind]. rewrite Ht. cbn [negb].
    unfold json_response. cbn [renderable forallb].
    rewrite !str_encodable_app, Henc. reflexivity.
  - intros e Habsent Hstat. unfold get_patient_data, load_patient_data.
    rewrite Habsent, Hstat. reflexivity.
Qed.

(** X19: a saved transcript is also a patient file: after a successful save
    for [name], [/patient/name_chat] answers with the transcript document
    ([name_chat.json] is both paths). *)
Theorem saved_chat_is_a_patient_file (fs fs' : gmap pystr json_text)
    (request : SaveChatRequest.t) (content : value) :
  (forall v f, json_dumps v = Ok f -> json_loads f = Ok v) ->
  save_chat_history fs request = (fs', JSONResponse content 200) ->
  get_patient_data fs' (SaveChatRequest.patient_name request ++ py "_chat")
  = json_response (VDict (chat_document request)) 200.
Proof.
  intros Hjson Hsave.
  destruct (save_success _ _ _ _ Hsave) as (f & Hd & Henc & ->).
  assert (Hpath : patient_file (SaveChatRequest.patient_name request ++ py "_chat")
                  = chat_file (SaveChatRequest.patient_name request)).
  { unfold patient_file, chat_file. rewrite <- app_assoc. reflexivity. }
  unfold get_patient_data, load_patient_data.
  rewrite Hpath, lookup_insert_eq, (Hjson _ _ Hd), chat_document_fields.
  reflexivity.
Qed.

(** X20: once the transcript is deleted (the removal not refused), loading
    the same name answers the empty history, whether or not a transcript
    existed, for an encodable name whose path can be examined. *)
Theorem delete_then_load_is_empty (fs : gmap pystr json_text) (patient_name : pystr) :
  str_encodable patient_name = true ->
  stat_error (chat_file patient_name) = None ->
  remove_error (chat_file patient_name) = None ->
  get_chat_history (fst (delete_chat_history fs patient_name)) patient_name
  = JSONResponse
      (VDict [(py "patient_name", VStr patient_name);
              (py "chat_history", VList []);
              (py "message_count", VInt 0)])
      200.
Proof.
  intros Henc Hstat Hrm.
  assert (Hgone : fst (delete_chat_history fs patient_name) !! chat_file patient_name
                  = None).
  { unfold delete_chat_history. rewrite Hrm, Hstat.
    destruct (fs !! chat_file patient_name) eqn:Hf; cbn [fst];
      [apply lookup_delete_eq | exact Hf]. }
  unfold get_chat_history. rewrite Hgone, Hstat. unfold json_response.
  cbn [renderable forallb]. rewrite Henc. reflexivity.
Qed.

(** X21: when the removal is not refused and the path can be examined, a
    second delete for the same name finds nothing, changes nothing and
    still answers success; when the path cannot be examined and no
    transcript is there, a delete answers 500 and changes nothing. *)
Theorem delete_chat_history_twice (fs : gmap pystr json_text) (patient_name : pystr) :
  (stat_error (chat_file patient_name) = None ->
   remove_error (chat_file patient_name) = None ->
   delete_chat_history (fst (delete_chat_history fs patient_name)) patient_name
   = (fst (delete_chat_history fs patient_name),
      JSONResponse
        (VDict [(py "success", VBool true);
                (py "message", VStr (py "No chat history found"))])
        200))
  /\ (forall e, fs !! chat_file patient_name = None ->
                stat_error (chat_file patient_name) = Some e ->
                delete_chat_history fs patient_name = (fs, error_response e)).
Proof.
  split.
  - intros Hstat Hrm.
    assert (Hgone : fst (delete_chat_history fs patient_name) !! chat_file patient_name
                    = None).
    { unfold delete_chat_history. rewrite Hrm, Hstat.
      destruct (fs !! chat_file patient_name) eqn:Hf; cbn [fst];
        [apply lookup_delete_eq | exact Hf]. }
    unfold delete_chat_history at 1. rewrite Hgone, Hstat. reflexivity.
  - intros e Habsent Hstat. unfold delete_chat_history.
    rewrite Habsent, Hstat. reflexivity.
Qed.


(** X23: a transcript file that exists but cannot be served answers 500:
    with the parser's error when it is not valid JSON, and with an
    attribute error when its document is not an object (the handler calls
    [data.get] on it before answering). *)
Theorem get_chat_history_unreadable (fs : gmap pystr json_text) (patient_name : pystr)
    (f : json_text) :
  fs !! chat_file patient_name = Some f ->
  (forall e, json_loads f = Raise e ->
             get_chat_history fs patient_name = error_response e)
  /\ (forall data, json_loads f = Ok data -> (forall d, data <> VDict d) ->
                   get_chat_history fs patient_name = error_response AttributeError).
Proof.
  intros Hf. unfold get_chat_history. rewrite Hf. split.
  - intros e ->. reflexivity.
  - intros data -> Hnd. cbn [bind].
    destruct data; try reflexivity. now destruct (Hnd d).
Qed.

(** *** Voice catalogue *)

Lemma family_exclusive (locale : pystr) :
  py_startswith locale (py "en-") = true -> py_startswith locale (py "ar-") = false.
Proof.
  unfold py_startswith. intros H.
  change (py "en-") with [101; 110; 45] in H.
  change (py "ar-") with [97; 114; 45].
  destruct locale as [|c locale]; cbn [is_prefix] in H |- *; [discriminate H|].
  apply andb_true_iff in H as [E _]. apply Z.eqb_eq in E. subst c. reflexivity.
Qed.

Lemma add_voice_spec (voice : value) (english arabic : list value) :
  voice_ok voice ->
  add_voice (english, arabic) voice
  = Ok (english ++ (if in_family (py "en-") voice then [entry_of voice] else []),
        arabic ++ (if in_family (py "ar-") voice then [entry_of voice] else [])).
Proof.
  intros (d & -> & locale & Hl).
  assert (Hvl : voice_locale (VDict d) = locale)
    by (unfold voice_locale; now rewrite Hl).
  unfold add_voice, voice_entry, in_family, entry_of, py_get_default.
  cbn [bind fst snd]. rewrite Hl, Hvl.
  destruct (py_startswith locale (py "en-")) eqn:Hen.
  - rewrite (family_exclusive _ Hen). cbn [bind]. now rewrite app_nil_r.
  - destruct (py_startswith locale (py "ar-")); cbn [bind];
      now rewrite ?app_nil_r.
Qed.

Lemma collect_voices_spec (voices : list value) (english arabic : list value) :
  Forall voice_ok voices ->
  collect_voices voices (english, arabic)
  = Ok (english ++ map entry_of (List.filter (in_family (py "en-")) voices),
        arabic ++ map entry_of (List.filter (in_family (py "ar-")) voices)).
Proof.
  intros Hok. revert english arabic.
  induction Hok as [|voice voices Hv _ IH]; intros english arabic;
    cbn [collect_voices List.filter map].
  - now rewrite !app_nil_r.
  - rewrite (add_voice_spec voice english arabic Hv). cbn [bind]. rewrite IH.
    destruct (in_family (py "en-") voice), (in_family (py "ar-") voice);
      cbn [map]; rewrite <- ?app_assoc, ?app_nil_r; reflexivity.
Qed.

(** X24: for a catalogue of well-formed voices, [/tts/voices] groups the
    voices whose locale starts with en- under english and those starting
    with ar- under arabic, each group in catalogue order, drops all other
    locales, and reports the group sizes as total_en and total_ar. *)
Theorem get_available_voices_groups (voices : list value) :
  Forall voice_ok voices ->
  get_available_voices (Ok voices)
  = json_response_or_500
      (VDict [(py "default_voices",
               VDict [(py "en", VStr (py "en-US-AriaNeural"));
                      (py "ar", VStr (py "ar-SA-ZariyahNeural"))]);
              (py "available_voices",
               VDict [(py "english",
                       VList (map entry_of (List.filter (in_family (py "en-")) voices)));
                      (py "arabic",
                       VList (map entry_of (List.filter (in_family (py "ar-")) voices)))]);
              (py "total_en",
               VInt (Z.of_nat (length (List.filter (in_family (py "en-")) voices))));
              (py "total_ar",
               VInt (Z.of_nat (length (List.filter (in_family (py "ar-")) voices))))])
      200.
Proof.
  intros Hok. unfold get_available_voices. cbn [bind].
  rewrite (collect_voices_spec voices [] [] Hok). cbn [bind fst snd app].
  rewrite !length_map. reflexivity.
Qed.

End Service.

(** ** The theorems at concrete requests *)

Lemma detect_language_total_witness :
  detect_language detect_fr (py "مرحبا doctor") = py "ar"
  /\ detect_language detect_fails (py "hi") = py "en".
Proof.
  split.
  - apply (proj1 (proj2 (detect_language_total detect_fr (py "مرحبا doctor")))).
    exists 0x0645. split; [vm_compute; auto|]. unfold ArabicScript. lia.
  - apply (proj2 (proj2 (detect_language_total detect_fails (py "hi")))
             (Exception (py "No features in text."))); [|reflexivity].
    intros (c & Hc & Hr). vm_compute in Hc. unfold ArabicScript in Hr.
    destruct Hc as [<-|[<-|[]]]; lia.
Defined.


Lemma system_prompt_append_only_witness :
  (exists system_prompt patient_block biomarker_block,
      chat_system_prompt toy_repr toy_predict toy_prompt_en toy_prompt_ar
        chat_request_with_context (py "en")
      = Ok (system_prompt, VDict lab_report)
      /\ system_prompt = py "Be kind." ++ patient_block ++ biomarker_block
      /\ contains (py "   • bp: 120/80") patient_block = true
      /\ contains (py "2. Vitamin D") biomarker_block = true)
  /\ (exists system_prompt patient_block biomarker_block,
         chat_system_prompt toy_repr toy_predict toy_prompt_en toy_prompt_ar
           chat_request_with_context (py "ar")
         = Ok (system_prompt, VDict lab_report)
         /\ system_prompt = py "كن لطيفا." ++ patient_block ++ biomarker_block
         /\ contains (py "الاسم: Sara") patient_block = true
         /\ contains (py "2. Vitamin D") biomarker_block = true).
Proof.
  split.
  - destruct (chat_system_prompt toy_repr toy_predict toy_prompt_en toy_prompt_ar
                chat_request_with_context (py "en"))
      as [[system_prompt report]|e] eqn:Hsp; [|discriminate Hsp].
    destruct (system_prompt_append_only toy_repr toy_predict toy_prompt_en
                toy_prompt_ar chat_request_with_context (py "en")
                system_prompt report Hsp)
      as (Hreport & pb & bb & Heq & Hp & _ & Hb & _ & _ & _).
    subst report.
    destruct (Hp eq_refl) as [Hfp _]. destruct (Hb eq_refl) as [Hfb _].
    exists system_prompt, pb, bb.
    split; [reflexivity|]. split; [exact Heq|].
    vm_compute in Hfp. vm_compute in Hfb.
    injection Hfp as <-. injection Hfb as <-.
    split; vm_compute; reflexivity.
  - destruct (chat_system_prompt toy_repr toy_predict toy_prompt_en toy_prompt_ar
                chat_request_with_context (py "ar"))
      as [[system_prompt report]|e] eqn:Hsp; [|discriminate Hsp].
    destruct (system_prompt_append_only toy_repr toy_predict toy_prompt_en
                toy_prompt_ar chat_request_with_context (py "ar")
                system_prompt report Hsp)
      as (Hreport & pb & bb & Heq & Hp & _ & Hb & _ & _ & _).
    subst report.
    destruct (Hp eq_refl) as [Hfp _]. destruct (Hb eq_refl) as [Hfb _].
    exists system_prompt, pb, bb.
    split; [reflexivity|]. split; [exact Heq|].
    vm_compute in Hfp. vm_compute in Hfb.
    injection Hfp as <-. injection Hfb as <-.
    split; vm_compute; reflexivity.
Defined.

Lemma env_ok_reaches_recognition (wf : wav_file) :
  getnchannels wf = 1 -> getsampwidth wf = 2 ->
  reaches_recognition true (env_ok wf) wf.
Proof.
  intros Hc Hs. unfold reaches_recognition.
  repeat split; try assumption; eexists; reflexivity.
Defined.

Lemma stt_status_by_transcript_witness :
  snd (speech_to_text toy_exn_str pystr toy_loads true toy_recognizer toy_Kaldi
         toy_Accept toy_Final (env_ok silent_wav) (py "auto") ∅)
  = JSONResponse
      (VDict [(py "transcript", VStr []);
              (py "detected_language", VStr (py "en"));
              (py "status", VStr (py "no_speech"))])
      200
  /\ snd (speech_to_text toy_exn_str pystr toy_loads true toy_recognizer toy_Kaldi
            toy_Accept toy_Final (env_ok spoken_wav) (py "en") ∅)
     = JSONResponse
         (VDict [(py "transcript", VStr (py "hello"));
                 (py "detected_language", VStr (py "en"));
                 (py "status", VStr (py "success"))])
         200.
Proof.
  split.
  - apply (proj1 (stt_status_by_transcript toy_exn_str pystr toy_loads true
             toy_recognizer toy_Kaldi toy_Accept toy_Final (env_ok silent_wav)
             (py "auto") ∅ silent_wav (vosk_model_en, [])
             (VDict [(py "text", VStr [])]) []
             (env_ok_reaches_recognition silent_wav eq_refl eq_refl)
             eq_refl eq_refl eq_refl)).
  - apply (proj1 (stt_status_by_transcript toy_exn_str pystr toy_loads true
             toy_recognizer toy_Kaldi toy_Accept toy_Final (env_ok spoken_wav)
             (py "en") ∅ spoken_wav (vosk_model_en, [])
             (VDict [(py "text", VStr (py " hello "))]) (py " hello ")
             (env_ok_reaches_recognition spoken_wav eq_refl eq_refl)
             eq_refl eq_refl eq_refl)).
Defined.

Lemma stt_leaks_raw_upload_witness :
  (py "/tmp/tmpk3x9.webm"
     ∈ fst (speech_to_text toy_exn_str pystr toy_loads true toy_recognizer toy_Kaldi
              toy_Accept toy_Final env_read_fails (py "auto") ∅))
  /\ exists content,
      snd (speech_to_text toy_exn_str pystr toy_loads true toy_recognizer toy_Kaldi
             toy_Accept toy_Final env_read_fails (py "auto") ∅)
      = JSONResponse content 500.
Proof.
  apply (stt_leaks_raw_upload toy_exn_str pystr toy_loads true toy_recognizer
           toy_Kaldi toy_Accept toy_Final env_read_fails (py "auto") ∅
           (Exception (py "read failed")));
    [reflexivity | left; reflexivity].
Defined.

Lemma stt_reports_unknown_language_witness :
  stt_model (stt_detected_language (py "fr")) = vosk_model_en
  /\ exists transcript status,
      snd (speech_to_text toy_exn_str pystr toy_loads true toy_recognizer toy_Kaldi
             toy_Accept toy_Final (env_ok spoken_wav) (py "fr") ∅)
      = JSONResponse
          (VDict [(py "transcript", transcript);
                  (py "detected_language", VStr (py "fr"));
                  (py "status", status)])
          200
      /\ py "fr" <> py "en" /\ py "fr" <> py "ar".
Proof.
  apply (stt_reports_unknown_language toy_exn_str pystr toy_loads true
           toy_recognizer toy_Kaldi toy_Accept toy_Final (env_ok spoken_wav)
           (py "fr") ∅ spoken_wav (vosk_model_en, [])
           (VDict [(py "text", VStr (py " hello "))]) (py " hello "));
    [discriminate | discriminate | discriminate
    | now apply env_ok_reaches_recognition | reflexivity..].
Defined.

Lemma save_then_load_witness :
  exists doc,
    get_chat_history toy_exn_str value doc_loads (py "patient_histories") toy_path_join
      stat_name_too_long
      (fst (save_chat_history toy_exn_str value (py "patient_histories") toy_path_join
              doc_dumps (fun v => v) (fun _ => None)
              (py "2025-03-09T14:05:11.402913") [] ∅ save_request))
      (py "sara")
    = JSONResponse (VDict doc) 200
    /\ turns_of_document (VDict doc) = Some two_turns
    /\ dict_lookup doc (py "patient_name") = Some (VStr (py "sara"))
    /\ dict_lookup doc (py "message_count") = Some (VInt 2)
    /\ dict_lookup doc (py "last_updated")
       = Some (VStr (py "2025-03-09T14:05:11.402913")).
Proof.
  eapply (save_then_load toy_exn_str value doc_loads (py "patient_histories")
            toy_path_join doc_dumps (fun v => v) (fun _ => None) stat_name_too_long
            (py "2025-03-09T14:05:11.402913") [] ∅ _ save_request).
  - intros v f [= ->]. reflexivity.
  - reflexivity.
Defined.



(** ** The further properties at concrete requests *)


Lemma chat_survives_biomarker_failure_witness :
  chat detect_fr toy_repr toy_predict toy_prompt_en toy_prompt_ar toy_generate
       toy_exn_str chat_request_raw_biomarker
  = chat detect_fr toy_repr toy_predict toy_prompt_en toy_prompt_ar toy_generate
         toy_exn_str (without_biomarker chat_request_raw_biomarker).
Proof.
  apply (chat_survives_biomarker_failure detect_fr toy_repr toy_predict toy_prompt_en
           toy_prompt_ar toy_generate toy_exn_str chat_request_raw_biomarker
           [(py "glucose", VInt 180)] KeyError);
    [reflexivity | reflexivity | discriminate | reflexivity].
Defined.


Lemma format_patient_history_accepts_partial_witness :
  record_ok patient_with_vitals = true
  /\ exists block, format_patient_history toy_repr patient_with_vitals (py "ar") = Ok block.
Proof.
  split; [reflexivity|].
  apply (format_patient_history_accepts_partial toy_repr patient_with_vitals (py "ar")).
  reflexivity.
Defined.

Lemma chat_rejects_malformed_personal_info_witness :
  chat detect_fr toy_repr toy_predict toy_prompt_en toy_prompt_ar toy_generate
       toy_exn_str chat_request_bad_record
  = ([], error_response toy_exn_str AttributeError).
Proof.
  apply (chat_rejects_malformed_personal_info detect_fr toy_repr toy_predict
           toy_prompt_en toy_prompt_ar toy_generate toy_exn_str
           chat_request_bad_record [(py "personal_info", VStr (py "Sara"))]);
    reflexivity.
Defined.

Lemma format_patient_history_ignores_other_keys_witness :
  format_patient_history toy_repr
    ((py "insurance", VStr (py "A-1134")) :: patient_with_vitals) (py "en")
  = format_patient_history toy_repr patient_with_vitals (py "en").
Proof.
  apply (format_patient_history_ignores_other_keys toy_repr patient_with_vitals
           (py "insurance") (VStr (py "A-1134")) (py "en")); [|discriminate].
  vm_compute. intros [H|[H|[H|[H|[H|[H|[]]]]]]]; discriminate H.
Defined.

Lemma format_biomarker_context_numbered_witness :
  format_biomarker_context toy_repr (VDict lab_report) (py "en")
  = Ok (NL ++ NL ++ py "📊 LAB REPORT INFORMATION:" ++ NL
        ++ py "🎯 Top Health Priorities:" ++ NL
        ++ py "1. Lower LDL" ++ NL ++ py "2. Vitamin D" ++ NL).
Proof.
  rewrite (format_biomarker_context_numbered toy_repr lab_report
             [(py "top_priorities", VList [VStr (py "Lower LDL"); VStr (py "Vitamin D")])]
             [VStr (py "Lower LDL"); VStr (py "Vitamin D")] (py "en")
             eq_refl eq_refl);
    [reflexivity|discriminate].
Defined.

Lemma format_biomarker_context_title_only_witness :
  format_biomarker_context toy_repr (VDict [(py "status", VStr (py "pending"))]) (py "ar")
  = Ok (NL ++ NL ++ py "📊 معلومات تقرير المختبر:" ++ NL).
Proof.
  rewrite (format_biomarker_context_title_only toy_repr
             [(py "status", VStr (py "pending"))] (py "ar"));
    [reflexivity | discriminate | reflexivity].
Defined.

Lemma detect_language_statistical_witness :
  detect_language detect_fr (py "bonjour") = py "en".
Proof.
  rewrite (detect_language_statistical detect_fr (py "bonjour") (py "fr"));
    [reflexivity | | reflexivity].
  intros (c & Hc & Hr). vm_compute in Hc. unfold ArabicScript in Hr.
  destruct Hc as [<-|[<-|[<-|[<-|[<-|[<-|[<-|[]]]]]]]]; lia.
Defined.

Lemma tts_voice_resolution_witness :
  tts_voice tts_custom_voice_request (py "ar") = py "custom-voice-id"
  /\ tts_voice tts_arabic_request (tts_language detect_fr tts_arabic_request)
     = py "ar-SA-ZariyahNeural"
  /\ tts_voice tts_hello_request (tts_language detect_fr tts_hello_request)
     = py "en-US-AriaNeural".
Proof.
  split; [|split].
  - apply (proj1 (tts_voice_resolution detect_fr tts_custom_voice_request)
             (py "custom-voice-id") (py "ar") eq_refl).
    discriminate.
  - rewrite (proj2 (tts_voice_resolution detect_fr tts_arabic_request)
               (or_introl eq_refl)).
    reflexivity.
  - rewrite (proj2 (tts_voice_resolution detect_fr tts_hello_request)
               (or_introl eq_refl)).
    reflexivity.
Defined.

Lemma text_to_speech_empty_audio_witness :
  text_to_speech detect_fr toy_exn_str toy_stream_silent tts_hello_request
  = JSONResponse
      (VDict [(py "error", VStr (py "No audio data generated"));
              (py "type", VStr (py "tts_error"));
              (py "details", VStr (py "Text-to-speech generation failed"))])
      500.
Proof.
  apply (text_to_speech_empty_audio detect_fr toy_exn_str toy_stream_silent
           tts_hello_request
           [ {| Chunk.type := py "WordBoundary"; Chunk.data := [] |} ]);
    reflexivity.
Defined.

Lemma text_to_speech_streams_audio_witness :
  text_to_speech detect_fr toy_exn_str toy_stream tts_hello_request
  = StreamingResponse [73; 68; 51] (py "audio/mpeg")
      [(py "Content-Disposition", py "inline; filename=speech.mp3");
       (py "X-Language", py "en");
       (py "X-Voice", py "en-US-AriaNeural");
       (py "Cache-Control", py "no-cache")]
  /\ text_to_speech detect_fr toy_exn_str toy_stream tts_euro_voice_request
     = JSONResponse
         (VDict [(py "error", VStr (py "UnicodeEncodeError"));
                 (py "type", VStr (py "tts_error"));
                 (py "details", VStr (py "Text-to-speech generation failed"))])
         500.
Proof.
  split.
  - rewrite (proj1 (text_to_speech_streams_audio detect_fr toy_exn_str toy_stream
                      tts_hello_request
                      [ {| Chunk.type := py "audio"; Chunk.data := [73; 68] |};
                        {| Chunk.type := py "WordBoundary"; Chunk.data := [9] |};
                        {| Chunk.type := py "audio"; Chunk.data := [51] |} ]
                      eq_refl ltac:(discriminate)) eq_refl).
    reflexivity.
  - rewrite (proj2 (text_to_speech_streams_audio detect_fr toy_exn_str toy_stream
                      tts_euro_voice_request
                      [ {| Chunk.type := py "audio"; Chunk.data := [73; 68] |};
                        {| Chunk.type := py "WordBoundary"; Chunk.data := [9] |};
                        {| Chunk.type := py "audio"; Chunk.data := [51] |} ]
                      eq_refl ltac:(discriminate)) eq_refl).
    reflexivity.
Defined.

Lemma tts_language_basic_block_witness :
  tts_language detect_fr tts_arabic_request = py "ar".
Proof.
  apply (tts_language_basic_block detect_fr tts_arabic_request).
  exists 0x0645. split; [vm_compute; auto | lia].
Defined.

Lemma speech_to_text_touches_only_temp_files_witness :
  py "/tmp/notes.txt"
    ∈ fst (speech_to_text toy_exn_str pystr toy_loads true toy_recognizer toy_Kaldi
             toy_Accept toy_Final (env_ok spoken_wav) (py "en")
             {[ py "/tmp/notes.txt" ]}).
Proof.
  apply (speech_to_text_touches_only_temp_files toy_exn_str pystr toy_loads true
           toy_recognizer toy_Kaldi toy_Accept toy_Final (env_ok spoken_wav) (py "en")
           {[ py "/tmp/notes.txt" ]} (py "/tmp/notes.txt"));
    [discriminate | discriminate | now apply elem_of_singleton].
Defined.

Lemma stt_cleanup_after_upload_witness :
  (py "/tmp/tmpk3x9.webm"
     ∉ fst (speech_to_text toy_exn_str pystr toy_loads true toy_recognizer toy_Kaldi
              toy_Accept toy_Final (env_ffmpeg (FfmpegTimeout true) silent_wav)
              (py "en") ∅))
  /\ (py "/tmp/tmpq7c2.wav"
        ∉ fst (speech_to_text toy_exn_str pystr toy_loads true toy_recognizer toy_Kaldi
                 toy_Accept toy_Final (env_ffmpeg (FfmpegTimeout true) silent_wav)
                 (py "en") ∅)).
Proof.
  apply (stt_cleanup_after_upload toy_exn_str pystr toy_loads true toy_recognizer
           toy_Kaldi toy_Accept toy_Final (env_ffmpeg (FfmpegTimeout true) silent_wav)
           (py "en") ∅ [26; 69; 223; 163]);
    first [reflexivity | discriminate].
Defined.

Lemma feed_in_chunks_witness :
  feed toy_recognizer toy_Accept 4 (vosk_model_en, []) [12; -7; 3]
  = (vosk_model_en, [[12; -7; 3]]).
Proof.
  refine (proj1 (proj2 (feed_in_chunks toy_recognizer toy_Accept (vosk_model_en, [])))
            [12; -7; 3] _ _);
    [discriminate | cbn [length]; lia].
Defined.

Lemma stt_failure_responses_witness :
  snd (speech_to_text toy_exn_str pystr toy_loads true toy_recognizer toy_Kaldi
         toy_Accept toy_Final (env_ffmpeg (FfmpegExit 1 false) silent_wav) (py "en") ∅)
  = JSONResponse (VDict [(py "error", VStr (py "Audio conversion failed"))]) 500
  /\ snd (speech_to_text toy_exn_str pystr toy_loads true toy_recognizer toy_Kaldi
            toy_Accept toy_Final (env_ffmpeg (FfmpegTimeout true) silent_wav) (py "en") ∅)
     = JSONResponse (VDict [(py "error", VStr (py "Audio processing timeout"))]) 500
  /\ snd (speech_to_text toy_exn_str pystr toy_loads true toy_recognizer toy_Kaldi
            toy_Accept toy_Final (env_ffmpeg (FfmpegExit 0 true) stereo_wav) (py "en") ∅)
     = JSONResponse (VDict [(py "error", VStr (py "Invalid WAV format"))]) 400
  /\ speech_to_text toy_exn_str pystr toy_loads false toy_recognizer toy_Kaldi
       toy_Accept toy_Final (env_ok spoken_wav) (py "en") ∅
     = (∅, JSONResponse
             (VDict [(py "error",
                      VStr (py "Speech-to-text not available. Vosk models not found."))])
             503).
Proof.
  pose proof (fun available env =>
                stt_failure_responses toy_exn_str pystr toy_loads available
                  toy_recognizer toy_Kaldi toy_Accept toy_Final env (py "en") ∅) as H.
  split; [|split; [|split]].
  - destruct (proj2 (H true (env_ffmpeg (FfmpegExit 1 false) silent_wav)) eq_refl
                (ex_intro _ _ eq_refl) eq_refl) as (Hc & _ & _).
    apply (Hc 1 false eq_refl). discriminate.
  - destruct (proj2 (H true (env_ffmpeg (FfmpegTimeout true) silent_wav)) eq_refl
                (ex_intro _ _ eq_refl) eq_refl) as (_ & Ht & _).
    apply (Ht true eq_refl).
  - destruct (proj2 (H true (env_ffmpeg (FfmpegExit 0 true) stereo_wav)) eq_refl
                (ex_intro _ _ eq_refl) eq_refl) as (_ & _ & Hf).
    apply (Hf true stereo_wav eq_refl eq_refl). left. discriminate.
  - apply (proj1 (H false (env_ok spoken_wav)) eq_refl).
Defined.

Lemma list_patients_witness_response :
  list_patients toy_exn_str (py "patient_histories")
    (Ok [py "sara"; py "sara_chat"; py "omar"; py "sara"])
  = JSONResponse
      (VDict [(py "patients", VList [VStr (py "sara"); VStr (py "omar"); VStr (py "sara")]);
              (py "count", VInt 3);
              (py "folder", VStr (py "patient_histories"))])
      200.
Proof. reflexivity. Defined.

Lemma list_patients_hides_transcripts_witness :
  exists (is_transcript : pystr -> bool) (patients : list pystr),
    (forall stem, is_transcript stem = true <-> exists name, stem = name ++ py "_chat")
    /\ patients
       = List.filter (fun stem => negb (is_transcript stem))
           [py "sara"; py "sara_chat"; py "omar"; py "sara"]
    /\ [(py "patients", VList [VStr (py "sara"); VStr (py "omar"); VStr (py "sara")]);
        (py "count", VInt 3);
        (py "folder", VStr (py "patient_histories"))]
       = [(py "patients", VList (map VStr patients));
          (py "count", VInt (Z.of_nat (length patients)));
          (py "folder", VStr (py "patient_histories"))]
    /\ forall name, ~ In (name ++ py "_chat") patients.
Proof.
  exact (list_patients_hides_transcripts toy_exn_str (py "patient_histories")
           [py "sara"; py "sara_chat"; py "omar"; py "sara"] _
           list_patients_witness_response).
Defined.

Lemma get_patient_data_not_found_witness :
  get_patient_data value doc_loads (py "patient_histories") toy_path_join
    stat_name_too_long ∅ (py "sara")
  = Ok (JSONResponse (VDict [(py "error", VStr (py "Patient sara not found"))]) 404)
  /\ get_patient_data value doc_loads (py "patient_histories") toy_path_join
       stat_name_too_long ∅ long_name
     = Raise (Exception (py "[Errno 36] File name too long")).
Proof.
  split.
  - apply (proj1 (get_patient_data_not_found value doc_loads (py "patient_histories")
                    toy_path_join stat_name_too_long ∅ (py "sara")));
      [reflexivity|].
    left. split; [apply lookup_empty | reflexivity].
  - apply (proj2 (get_patient_data_not_found value doc_loads (py "patient_histories")
                    toy_path_join stat_name_too_long ∅ long_name));
      [apply lookup_empty | vm_compute; reflexivity].
Defined.

Lemma saved_chat_is_a_patient_file_witness :
  exists doc,
    get_patient_data value doc_loads (py "patient_histories") toy_path_join
      stat_name_too_long
      (fst (save_chat_history toy_exn_str value (py "patient_histories") toy_path_join
              doc_dumps (fun v => v) (fun _ => None)
              (py "2025-03-09T14:05:11.402913") [] ∅ save_request))
      (py "sara_chat")
    = Ok (JSONResponse (VDict doc) 200)
    /\ turns_of_document (VDict doc) = Some two_turns.
Proof.
  eexists. split.
  - refine (eq_trans
              (saved_chat_is_a_patient_file toy_exn_str value doc_loads
                 (py "patient_histories") toy_path_join doc_dumps (fun v => v)
                 (fun _ => None) stat_name_too_long
                 (py "2025-03-09T14:05:11.402913") [] ∅ _
                 save_request _ _ eq_refl) _).
    + intros v f [= ->]. reflexivity.
    + reflexivity.
  - reflexivity.
Defined.

Lemma delete_then_load_is_empty_witness :
  get_chat_history toy_exn_str value doc_loads (py "patient_histories") toy_path_join
    stat_name_too_long
    (fst (delete_chat_history toy_exn_str value (py "patient_histories") toy_path_join
            stat_name_too_long (fun _ => None)
            (fst (save_chat_history toy_exn_str value (py "patient_histories")
                    toy_path_join doc_dumps (fun v => v) (fun _ => None)
                    (py "2025-03-09T14:05:11.402913") [] ∅ save_request))
            (py "sara")))
    (py "sara")
  = JSONResponse
      (VDict [(py "patient_name", VStr (py "sara"));
              (py "chat_history", VList []);
              (py "message_count", VInt 0)])
      200.
Proof.
  apply (delete_then_load_is_empty toy_exn_str value doc_loads (py "patient_histories")
           toy_path_join stat_name_too_long (fun _ => None));
    reflexivity.
Defined.

Lemma delete_chat_history_twice_witness :
  snd (delete_chat_history toy_exn_str value (py "patient_histories") toy_path_join
         stat_name_too_long (fun _ => None)
         (fst (delete_chat_history toy_exn_str value (py "patient_histories")
                 toy_path_join stat_name_too_long (fun _ => None)
                 {[ py "patient_histories/sara_chat.json" := VDict [] ]} (py "sara")))
         (py "sara"))
  = JSONResponse
      (VDict [(py "success", VBool true);
              (py "message", VStr (py "No chat history found"))])
      200
  /\ delete_chat_history toy_exn_str value (py "patient_histories") toy_path_join
       stat_name_too_long (fun _ => None) ∅ long_name
     = (∅, JSONResponse
             (VDict [(py "error", VStr (py "[Errno 36] File name too long"))]) 500).
Proof.
  split.
  - rewrite (proj1 (delete_chat_history_twice toy_exn_str value (py "patient_histories")
                      toy_path_join stat_name_too_long (fun _ => None)
                      {[ py "patient_histories/sara_chat.json" := VDict [] ]} (py "sara"))
               eq_refl eq_refl).
    reflexivity.
  - assert (Hstat : stat_name_too_long
                      (chat_file (py "patient_histories") toy_path_join long_name)
                    = Some (Exception (py "[Errno 36] File name too long")))
      by (vm_compute; reflexivity).
    rewrite (proj2 (delete_chat_history_twice toy_exn_str value (py "patient_histories")
                      toy_path_join stat_name_too_long (fun _ => None) ∅ long_name)
               (Exception (py "[Errno 36] File name too long"))
               (lookup_empty _) Hstat).
    reflexivity.
Defined.


Lemma get_chat_history_unreadable_witness :
  get_chat_history toy_exn_str value strict_loads (py "patient_histories") toy_path_join
    stat_name_too_long
    {[ py "patient_histories/sara_chat.json" := VNone ]} (py "sara")
  = error_response toy_exn_str (Exception (py "Expecting value"))
  /\ get_chat_history toy_exn_str value strict_loads (py "patient_histories")
       toy_path_join stat_name_too_long
       {[ py "patient_histories/sara_chat.json" := VList [] ]} (py "sara")
     = error_response toy_exn_str AttributeError.
Proof.
  split.
  - apply (proj1 (get_chat_history_unreadable toy_exn_str value strict_loads
                    (py "patient_histories") toy_path_join stat_name_too_long
                    {[ py "patient_histories/sara_chat.json" := VNone ]} (py "sara")
                    VNone (lookup_singleton_eq _ _))).
    reflexivity.
  - apply (proj2 (get_chat_history_unreadable toy_exn_str value strict_loads
                    (py "patient_histories") toy_path_join stat_name_too_long
                    {[ py "patient_histories/sara_chat.json" := VList [] ]} (py "sara")
                    (VList []) (lookup_singleton_eq _ _)) (VList []));
      [reflexivity | discriminate].
Defined.

Lemma voice_catalogue_ok : Forall voice_ok voice_catalogue.
Proof.
  repeat constructor; eexists; (split; [reflexivity|]); eexists; reflexivity.
Defined.

Lemma get_available_voices_groups_witness :
  exists content,
    get_available_voices toy_repr toy_exn_str (Ok voice_catalogue)
    = JSONResponse (VDict content) 200
    /\ dict_lookup content (py "total_en") = Some (VInt 1)
    /\ dict_lookup content (py "total_ar") = Some (VInt 1)
    /\ dict_lookup content (py "available_voices")
       = Some (VDict
                 [(py "english",
                   VList [VDict [(py "name", VStr (py "en-US-AriaNeural"));
                                 (py "locale", VStr (py "en-US"));
                                 (py "gender", VStr (py "Female"));
                                 (py "display_name", VStr (py "Aria (Female)"))]]);
                  (py "arabic",
                   VList [VDict [(py "name", VStr (py "ar-SA-HamedNeural"));
                                 (py "locale", VStr (py "ar-SA"));
                                 (py "gender", VStr (py "Male"));
                                 (py "display_name",
                                  VStr (py "ar-SA-HamedNeural (Male)"))]])]).
Proof.
  rewrite (get_available_voices_groups toy_repr toy_exn_str voice_catalogue
             voice_catalogue_ok).
  eexists. split; [vm_compute; reflexivity|].
  repeat split; vm_compute; reflexivity.
Defined.
